(** * scipy.sparse.linalg.interface: LinearOperator and aslinearoperator

    A shallow embedding of [src/scipy/sparse/linalg/interface.py].

    The Python code is dynamically typed and talks to three collaborators that
    live outside the file: numpy (arrays, [dot], [hstack], [atleast_2d],
    [numpy.dtype]), [scipy.sparse] ([isspmatrix] and the sparse matrices) and
    [scipy.sparse.sputils.isshape].  The embedding keeps the layers apart:

    - [ndarray]: numpy arrays as a shape, row-major data and a dtype tag, with
      the numpy functions the file calls written out for every rank;
    - [pyval]: the Python values the two entry points can receive;
    - a heap of instances with attribute dictionaries ([gmap string pyval]):
      [LinearOperator.__init__] is a sequence of attribute assignments on
      [self], and [aslinearoperator] may return its argument itself;
    - a state-and-exception monad, used over the heap for the constructor and
      the normalizer and over the caller's world for the stored callables. *)

From Stdlib Require Import ZArith String List Lia.
From stdpp Require Import gmap strings list pretty.

Set Default Proof Using "Type".
Open Scope nat_scope.

(** ** Exceptions and results *)

Inductive exn : Type :=
| TypeError (msg : string)
| ValueError (msg : string)
| AttributeError (msg : string)
| NotImplementedError (msg : string).

Inductive result (A : Type) : Type :=
| Ok (a : A)
| Raise (e : exn).
Arguments Ok {A} a.
Arguments Raise {A} e.

(** ** A state monad with exceptions

    [SE S A] is a computation over a state [S] that returns an [A] or raises.
    The state reached when an exception is raised is kept: it is what a
    handler would observe. *)

Definition SE (S A : Type) : Type := S -> result A * S.

Definition se_ret {S A} (a : A) : SE S A := fun s => (Ok a, s).

Definition se_bind {S A B} (m : SE S A) (k : A -> SE S B) : SE S B :=
  fun s => match m s with
           | (Ok a, s') => k a s'
           | (Raise e, s') => (Raise e, s')
           end.

Definition se_raise {S A} (e : exn) : SE S A := fun s => (Raise e, s).

Definition se_lift {S A} (r : result A) : SE S A := fun s => (r, s).

#[global] Instance se_mret {S} : MRet (SE S) := fun A => @se_ret S A.
#[global] Instance se_mbind {S} : MBind (SE S) :=
  fun A B k m => @se_bind S A B m k.

(** [se_mapM f xs] runs [f] on the elements of [xs] from left to right and
    stops at the first exception: the evaluation order of a Python list
    comprehension. *)
Fixpoint se_mapM {S A B} (f : A -> SE S B) (xs : list A) : SE S (list B) :=
  match xs with
  | [] => mret []
  | x :: xs' => y ← f x; ys ← se_mapM f xs'; mret (y :: ys)
  end.

(** ** The numpy collaborator

    The element arithmetic, which elements are numpy integers, the dtype tags
    with their promotion rule and the world the stored callables act on are
    taken as given ([Env]).  What numpy does with shapes and element order is
    written out. *)

Class Env : Type := {
  scalar : Type;                          (* array elements *)
  zero : scalar;
  add : scalar -> scalar -> scalar;
  mul : scalar -> scalar -> scalar;
  conjugate : scalar -> scalar;
  as_integer : scalar -> option Z;        (* the value of a numpy integer *)
  Dtype : Type;                           (* numpy.dtype objects *)
  result_type : Dtype -> Dtype -> Dtype;  (* dtype of a combined result *)
  world : Type                            (* state of the caller's functions *)
}.

Section Numpy.
Context `{E : Env}.

(** An array: [shape] has one entry per axis, [data] lists the elements in
    row-major (C) order, [dtype] is the element-type tag. *)
Record ndarray : Type := mk_ndarray {
  shape : list nat;
  data : list scalar;
  dtype : Dtype
}.

Definition ndim (a : ndarray) : nat := length (shape a).

Definition prod_dims (s : list nat) : nat := foldr Nat.mul 1 s.

(** [chunks k sz l]: the first [k] consecutive blocks of [sz] elements. *)
Fixpoint chunks {A} (k sz : nat) (l : list A) : list (list A) :=
  match k with
  | 0 => []
  | S k' => take sz l :: chunks k' sz (drop sz l)
  end.

(** [for x in a]: the sub-arrays along the first axis; a 0-d array cannot be
    iterated. *)
Definition iter (a : ndarray) : result (list ndarray) :=
  match shape a with
  | [] => Raise (TypeError "iteration over a 0-d array")
  | d :: rest =>
      Ok (map (fun c => mk_ndarray rest c (dtype a))
              (chunks d (prod_dims rest) (data a)))
  end.

(** [a.transpose()] / [a.T]: the axes reversed. *)
Fixpoint transpose_data (s : list nat) (l : list scalar) : list scalar :=
  match s with
  | [] => l
  | d :: rest =>
      let ts := map (transpose_data rest) (chunks d (prod_dims rest) l) in
      concat (map (fun p => map (fun t => nth p t zero) ts)
                  (seq 0 (prod_dims rest)))
  end.

Definition transpose (a : ndarray) : ndarray :=
  mk_ndarray (rev (shape a)) (transpose_data (shape a) (data a)) (dtype a).

(** [a.conj()] *)
Definition conj (a : ndarray) : ndarray :=
  mk_ndarray (shape a) (map conjugate (data a)) (dtype a).

(** [a.reshape(-1,1)]: one column holding all the elements. *)
Definition reshape_column (a : ndarray) : ndarray :=
  mk_ndarray [prod_dims (shape a); 1] (data a) (dtype a).

Definition atleast_1d (a : ndarray) : ndarray :=
  match shape a with
  | [] => mk_ndarray [1] (data a) (dtype a)
  | _ => a
  end.

Definition atleast_2d (a : ndarray) : ndarray :=
  match shape a with
  | [] => mk_ndarray [1; 1] (data a) (dtype a)
  | [n] => mk_ndarray [1; n] (data a) (dtype a)
  | _ => a
  end.

(** Sum of products of two vectors, accumulated from the left. *)
Definition inner (u v : list scalar) : scalar :=
  foldl add zero (zip_with mul u v).

(** Column [c] of an [n] by [k] block stored row-major. *)
Definition block_column (n k c : nat) (blk : list scalar) : list scalar :=
  map (fun t => nth (t * k + c) blk zero) (seq 0 n).

(** [numpy.dot(a, b)]: a scalar operand scales the other one; otherwise the
    last axis of [a] is contracted with the only axis of a 1-d [b], or with
    the second-to-last axis of [b]. *)
Definition dot (a b : ndarray) : result ndarray :=
  let dt := result_type (dtype a) (dtype b) in
  match shape a, shape b with
  | [], _ =>
      Ok (mk_ndarray (shape b)
            (map (mul (nth 0 (data a) zero)) (data b)) dt)
  | _, [] =>
      Ok (mk_ndarray (shape a)
            (map (fun x => mul x (nth 0 (data b) zero)) (data a)) dt)
  | sa, [nb] =>
      let n := List.last sa 0 in
      let lead := removelast sa in
      if n =? nb then
        Ok (mk_ndarray lead
              (map (fun r => inner r (data b))
                   (chunks (prod_dims lead) n (data a))) dt)
      else Raise (ValueError "objects are not aligned")
  | sa, sb =>
      let n := List.last sa 0 in
      let lead := removelast sa in
      let k := List.last sb 0 in
      let nb := List.last (removelast sb) 0 in
      let mid := removelast (removelast sb) in
      if n =? nb then
        Ok (mk_ndarray (lead ++ mid ++ [k])
              (flat_map (fun r =>
                 flat_map (fun blk =>
                   map (fun c => inner r (block_column nb k c blk)) (seq 0 k))
                   (chunks (prod_dims mid) (nb * k) (data b)))
                 (chunks (prod_dims lead) n (data a))) dt)
      else Raise (ValueError "objects are not aligned")
  end.

(** [numpy.hstack(tup)]: the arrays are made at least 1-d; 1-d arrays are
    joined end to end, arrays of higher rank along their second axis.  All
    must have the same rank and agree on the other axes, and there must be at
    least one. *)
Definition hstack (tup : list ndarray) : result ndarray :=
  match map atleast_1d tup with
  | [] => Raise (ValueError "need at least one array to concatenate")
  | a0 :: rest =>
      let arrs := a0 :: rest in
      let dt := foldl result_type (dtype a0) (map dtype rest) in
      match shape a0 with
      | d0 :: k0 :: tl =>
          let width a := nth 1 (shape a) 0 in
          if forallb (fun a => bool_decide (shape a = d0 :: width a :: tl)) rest
          then
            Ok (mk_ndarray (d0 :: sum_list (map width arrs) :: tl)
                  (concat (map (fun i =>
                     flat_map (fun a =>
                       nth i (chunks d0 (width a * prod_dims tl) (data a)) [])
                       arrs) (seq 0 d0))) dt)
          else Raise (ValueError "array dimensions must agree except for d_1")
      | _ =>
          if forallb (fun a => ndim a =? 1) rest then
            Ok (mk_ndarray [sum_list (map (fun a => prod_dims (shape a)) arrs)]
                  (concat (map data arrs)) dt)
          else Raise (ValueError "arrays must have same number of dimensions")
      end
  end.

End Numpy.

(** ** Python values and the heap *)

(** Addresses of instances: two references are the same object exactly when
    they are the same address. *)
Abbreviation loc := nat (only parsing).

Section Values.
Context `{E : Env}.

(** A stored callable takes one array and returns one, may raise, and may
    change the caller's world. *)
Definition callable : Type := ndarray -> SE world ndarray.

(** The sparse-matrix collaborator, reduced to what the file can observe:
    [shape], [dtype], the bound methods [matvec], [rmatvec] and [dot], and
    the rows that iterating over it yields, themselves sparse matrices. *)
#[warnings="-register-all"]
Inductive spmatrix : Type := mk_spmatrix {
  sp_shape : nat * nat;
  sp_dtype : Dtype;
  sp_matvec : callable;
  sp_rmatvec : callable;
  sp_dot : callable;
  sp_rows : list spmatrix
}.

#[warnings="-register-all"]
Inductive pyval : Type :=
| PyNone
| PyInt (z : Z)
| PyStr (s : string)
| PyTuple (xs : list pyval)
| PyList (xs : list pyval)
| PyDtype (d : Dtype)
| PyNdarray (a : ndarray)          (* numpy.ndarray *)
| PyMatrix (a : ndarray)           (* numpy.matrix, always 2-d *)
| PySpmatrix (s : spmatrix)        (* any scipy.sparse matrix *)
| PyFunction (f : callable)
| PyRef (a : loc).                 (* an instance of a Python class *)

Inductive pyclass : Type :=
| LinearOperatorClass
| UserClass (name : string).

(** An instance: its class and its attribute dictionary. *)
Record object : Type := mk_object {
  class : pyclass;
  attrs : gmap string pyval
}.

(** The heap lists the instances by address. *)
#[local] Abbreviation heap := (list object) (only parsing).

(** Instance creation: a fresh address holding an instance without
    attributes. *)
Definition alloc (c : pyclass) : SE heap loc :=
  fun h => (Ok (length h), h ++ [mk_object c ∅]).

(** [self.name = v]: the attribute dictionary of [self] gets the entry. *)
Definition store (self : loc) (name : string) (v : pyval) (h : heap) : heap :=
  alter (fun o => mk_object (class o) (<[name := v]> (attrs o))) self h.

Definition setattr (self : loc) (name : string) (v : pyval) : SE heap unit :=
  fun h => (Ok (), store self name v h).

Definition shape_tuple (s : list nat) : pyval :=
  PyTuple (map (fun d => PyInt (Z.of_nat d)) s).

(** [getattr(A, name)], [None] when [A] has no such attribute.  Instances
    answer from their dictionary; arrays and sparse matrices expose the
    attributes named here; the other values have none of the attributes the
    file asks for. *)
Definition getattr (h : heap) (A : pyval) (name : string) : option pyval :=
  match A with
  | PyRef a => o ← h !! a; attrs o !! name
  | PyNdarray a | PyMatrix a =>
      if String.eqb name "shape" then Some (shape_tuple (shape a))
      else if String.eqb name "dtype" then Some (PyDtype (dtype a))
      else None
  | PySpmatrix s =>
      if String.eqb name "shape"
      then Some (shape_tuple [fst (sp_shape s); snd (sp_shape s)])
      else if String.eqb name "dtype" then Some (PyDtype (sp_dtype s))
      else if String.eqb name "matvec" then Some (PyFunction (sp_matvec s))
      else if String.eqb name "rmatvec" then Some (PyFunction (sp_rmatvec s))
      else if String.eqb name "dot" then Some (PyFunction (sp_dot s))
      else None
  | _ => None
  end.

Definition hasattr (h : heap) (A : pyval) (name : string) : bool :=
  bool_decide (is_Some (getattr h A name)).

Definition py_hasattr (A : pyval) (name : string) : SE heap bool :=
  fun h => (Ok (hasattr h A name), h).

(** [A.name]: the attribute, or [AttributeError]. *)
Definition attribute (A : pyval) (name : string) : SE heap pyval :=
  fun h =>
    match getattr h A name with
    | Some v => (Ok v, h)
    | None => (Raise (AttributeError name), h)
    end.

(** [f(x)] *)
Definition call (f : pyval) (x : ndarray) : SE world ndarray :=
  match f with
  | PyFunction g => g x
  | _ => se_raise (TypeError "object is not callable")
  end.

Definition type_name (v : pyval) : string :=
  match v with
  | PyNone => "NoneType"
  | PyInt _ => "int"
  | PyStr _ => "str"
  | PyTuple _ => "tuple"
  | PyList _ => "list"
  | PyDtype _ => "numpy.dtype"
  | PyNdarray _ => "numpy.ndarray"
  | PyMatrix _ => "numpy.matrix"
  | PySpmatrix _ => "spmatrix"
  | PyFunction _ => "function"
  | PyRef _ => "instance"
  end.

(** What iterating over an array yields for the sub-array [x]: the elements
    of a 1-d array are numpy scalars, and a numpy integer is held as the
    Python integer it equals (it is an integer for a shape check and for
    ['%d']); anything else stays the sub-array. *)
Definition element (x : ndarray) : pyval :=
  match shape x, data x with
  | [], [v] =>
      match as_integer v with
      | Some z => PyInt z
      | None => PyNdarray x
      end
  | _, _ => PyNdarray x
  end.

(** [tuple(v)]: the elements of an iterable, in order; a value that cannot be
    iterated raises [TypeError].  Tuples, lists and strings yield their
    elements, arrays what iterating along the first axis yields (so
    [tuple(array([2,3]))] is a pair of integers), matrices their rows as
    matrices, sparse matrices their rows; the other values of the model
    cannot be iterated (instances have data attributes only). *)
Definition tuple (v : pyval) : result (list pyval) :=
  match v with
  | PyTuple xs | PyList xs => Ok xs
  | PyStr s =>
      Ok (map (fun c => PyStr (String c EmptyString)) (list_ascii_of_string s))
  | PyNdarray a =>
      match iter a with
      | Ok xs => Ok (map element xs)
      | Raise e => Raise e
      end
  | PyMatrix a =>
      match iter a with
      | Ok xs => Ok (map (fun r => PyMatrix (atleast_2d r)) xs)
      | Raise e => Raise e
      end
  | PySpmatrix s => Ok (map PySpmatrix (sp_rows s))
  | _ => Raise (TypeError ("'" +:+ type_name v +:+ "' object is not iterable"))
  end.

(** Modelled from the spec: [scipy.sparse.sputils.isshape] is not among the
    source files.  The spec gives the shape-validity predicate as a sequence
    of exactly two non-negative integers. *)
Definition isshape (x : pyval) : bool :=
  match x with
  | PyTuple [PyInt M; PyInt N] => (0 <=? M)%Z && (0 <=? N)%Z
  | _ => false
  end.

(** [numpy.asarray]: the argument as a base-class array.  An [ndarray] of the
    model is one already; a [numpy.matrix] is held as [PyMatrix a] and its
    base-class array is [a]. *)
Definition asarray (a : ndarray) : ndarray := a.

End Values.

Abbreviation heap := (list object) (only parsing).

(** Builtins whose full behaviour is outside the file: [str(v)], and what
    [numpy.dtype] makes of a value that is not already a dtype object
    ([None] when numpy does not understand it). *)
Class Builtins (E : Env) : Type := {
  str : pyval -> string;
  dtype_of_descr : pyval -> option Dtype
}.

(** ** class LinearOperator *)

Section Interface.
Context `{B : Builtins}.

(** [numpy.dtype(v)] *)
Definition numpy_dtype (v : pyval) : result Dtype :=
  match v with
  | PyDtype d => Ok d
  | _ =>
      match dtype_of_descr v with
      | Some d => Ok d
      | None => Raise (TypeError "data type not understood")
      end
  end.

(** The stand-in installed when [rmatvec] is omitted (lines 62-63). *)
Definition rmatvec_default : callable :=
  fun v => se_raise (NotImplementedError "rmatvec is not defined").

(** The [matmat] installed when none is supplied (lines 70-72): [matvec] on
    each column of [V].  The closure holds the constructor's [matvec]
    argument. *)
Definition matmat_default (matvec : pyval) : callable :=
  fun V =>
    let V := asarray V in
    cols ← se_lift (iter (transpose V));
    results ← se_mapM (fun col => call matvec (reshape_column col)) cols;
    se_lift (hstack results).

(** [LinearOperator.__init__] (lines 51-78); an omitted optional argument is
    [PyNone]. *)
Definition LinearOperator__init__
    (self : loc) (shape matvec rmatvec matmat dtype : pyval) : SE heap unit :=
  shape ← se_lift (tuple shape);
  let shape := PyTuple shape in
  if negb (isshape shape) then se_raise (ValueError "invalid shape")
  else
    setattr self "shape" shape;;
    setattr self "matvec" matvec;;
    match rmatvec with
    | PyNone => setattr self "rmatvec" (PyFunction rmatvec_default)
    | _ => setattr self "rmatvec" rmatvec
    end;;
    match matmat with
    | PyNone => setattr self "matmat" (PyFunction (matmat_default matvec))
    | _ => setattr self "matmat" matmat
    end;;
    match dtype with
    | PyNone => mret ()
    | _ => d ← se_lift (numpy_dtype dtype); setattr self "dtype" (PyDtype d)
    end.

(** The call [LinearOperator(shape, matvec, rmatvec, matmat, dtype)]: a new
    instance is created, [__init__] runs on it, and the reference is the
    value of the call. *)
Definition LinearOperator
    (shape matvec rmatvec matmat dtype : pyval) : SE heap pyval :=
  self ← alloc LinearOperatorClass;
  LinearOperator__init__ self shape matvec rmatvec matmat dtype;;
  mret (PyRef self).

(** ['%d' % v] *)
Definition format_d (v : pyval) : result string :=
  match v with
  | PyInt z => Ok (pretty z)
  | _ => Raise (TypeError "%d format: a number is required")
  end.

(** [LinearOperator.__repr__] (lines 80-87). *)
Definition LinearOperator__repr__ (self : pyval) : SE heap string :=
  sh ← attribute self "shape";
  MN ← se_lift (tuple sh);
  match MN with
  | [M; N] =>
      has_dtype ← py_hasattr self "dtype";
      dt ← (if has_dtype : bool
            then d ← attribute self "dtype"; mret ("dtype=" +:+ str d)
            else mret "unspecified dtype");
      m ← se_lift (format_d M);
      n ← se_lift (format_d N);
      mret ("<" +:+ m +:+ "x" +:+ n +:+ " LinearOperator with " +:+ dt +:+ ">")
  | _ => se_raise (ValueError "wrong number of values to unpack")
  end.

(** ** aslinearoperator *)

Definition isinstance_LinearOperator (h : heap) (A : pyval) : bool :=
  match A with
  | PyRef a =>
      match h !! a with
      | Some o =>
          match class o with
          | LinearOperatorClass => true
          | UserClass _ => false
          end
      | None => false
      end
  | _ => false
  end.

(** [aslinearoperator] (lines 89-145). *)
Definition aslinearoperator (A : pyval) : SE heap pyval :=
  fun h =>
    if isinstance_LinearOperator h A then (Ok A, h)
    else
      match A with
      | PyNdarray a | PyMatrix a =>
          if 2 <? length (shape a)
          then (Raise (ValueError "array must have rank <= 2"), h)
          else
            let A := atleast_2d (asarray a) in
            let matvec : callable := fun v => se_lift (dot A v) in
            let rmatvec : callable :=
              fun v => se_lift (dot (transpose (conj A)) v) in
            let matmat : callable := fun V => se_lift (dot A V) in
            LinearOperator (shape_tuple (shape A)) (PyFunction matvec)
              (PyFunction rmatvec) (PyFunction matmat) (PyDtype (dtype A)) h
      | PySpmatrix s =>
          LinearOperator (shape_tuple [fst (sp_shape s); snd (sp_shape s)])
            (PyFunction (sp_matvec s)) (PyFunction (sp_rmatvec s))
            (PyFunction (sp_dot s)) (PyDtype (sp_dtype s)) h
      | _ =>
          if hasattr h A "shape" && hasattr h A "matvec" then
            (rmatvec ← (if hasattr h A "rmatvec" then attribute A "rmatvec"
                        else mret PyNone);
             dtype ← (if hasattr h A "dtype" then attribute A "dtype"
                      else mret PyNone);
             A_shape ← attribute A "shape";
             A_matvec ← attribute A "matvec";
             LinearOperator A_shape A_matvec rmatvec PyNone dtype) h
          else (Raise (TypeError "type not understood"), h)
      end.

End Interface.

(** ** Vocabulary of the statements *)

Section Vocabulary.
Context `{B : Builtins}.

(** The method call [A.name(x)]. *)
Definition invoke (h : heap) (A : pyval) (name : string) (x : ndarray)
    : SE world ndarray :=
  match getattr h A name with
  | Some f => call f x
  | None => se_raise (AttributeError name)
  end.

(** What [__init__] stores in the [rmatvec] and [matmat] slots, and whether it
    stores a dtype. *)
Definition stored_rmatvec (rmatvec : pyval) : pyval :=
  match rmatvec with
  | PyNone => PyFunction rmatvec_default
  | _ => rmatvec
  end.

Definition stored_matmat (matvec matmat : pyval) : pyval :=
  match matmat with
  | PyNone => PyFunction (matmat_default matvec)
  | _ => matmat
  end.

Definition stored_dtype (dtype : pyval) : result (option Dtype) :=
  match dtype with
  | PyNone => Ok None
  | _ =>
      match numpy_dtype dtype with
      | Ok d => Ok (Some d)
      | Raise e => Raise e
      end
  end.

(** The attribute dictionary of a finished operator. *)
Definition operator_attrs (t : list pyval) (matvec rmatvec matmat : pyval)
    (d : option Dtype) : gmap string pyval :=
  let base :=
    <["matmat" := stored_matmat matvec matmat]>
      (<["rmatvec" := stored_rmatvec rmatvec]>
         (<["matvec" := matvec]> (<["shape" := PyTuple t]> ∅))) in
  match d with
  | Some d => <["dtype" := PyDtype d]> base
  | None => base
  end.

(** The spec's shape-validity predicate on the constructor's argument: a
    sequence of exactly two non-negative integers.  The sequence is a tuple,
    a list, or a 1-d array of two numpy integers. *)
Definition valid_shape_argument (v : pyval) : bool :=
  match v with
  | PyTuple [PyInt M; PyInt N] | PyList [PyInt M; PyInt N] =>
      (0 <=? M)%Z && (0 <=? N)%Z
  | PyNdarray a =>
      match shape a, data a with
      | [2], v0 :: v1 :: _ =>
          match as_integer v0, as_integer v1 with
          | Some M, Some N => (0 <=? M)%Z && (0 <=? N)%Z
          | _, _ => false
          end
      | _, _ => false
      end
  | _ => false
  end.

(** The kinds the normalizer tells apart before it looks at attributes. *)
Definition isinstance_dense (A : pyval) : bool :=
  match A with
  | PyNdarray _ | PyMatrix _ => true
  | _ => false
  end.

Definition isspmatrix (A : pyval) : bool :=
  match A with
  | PySpmatrix _ => true
  | _ => false
  end.

(** An array is well formed when it has as many elements as its shape says;
    every array numpy builds is. *)
Definition wf_ndarray (a : ndarray) : Prop :=
  length (data a) = prod_dims (shape a).

(** An [M] by 1 array. *)
Definition is_column (M : nat) (r : ndarray) : Prop :=
  shape r = [M; 1] /\ wf_ndarray r.

(** Column [j] of the [N] by [K] matrix with row-major elements [d], as an
    [N] by 1 array, and all the columns from left to right. *)
Definition matrix_column (N K : nat) (d : list scalar) (dt : Dtype) (j : nat)
    : ndarray :=
  mk_ndarray [N; 1] (map (fun i => nth (i * K + j) d zero) (seq 0 N)) dt.

Definition matrix_columns (N K : nat) (d : list scalar) (dt : Dtype)
    : list ndarray :=
  map (matrix_column N K d dt) (seq 0 K).

(** The [M] by [K] matrix whose [K] columns hold the data of [c :: rest],
    from left to right. *)
Definition matrix_of_columns (M : nat) (c : ndarray) (rest : list ndarray)
    : ndarray :=
  let cols := c :: rest in
  mk_ndarray [M; length cols]
    (concat (map (fun i => map (fun r => nth i (data r) zero) cols) (seq 0 M)))
    (foldl result_type (dtype c) (map dtype rest)).

(** The synthesized [matmat] as the spec words it: [matvec] on each column
    from left to right, each result reshaped as a column, the columns joined
    from left to right. *)
Definition matmat_reshaping_results (matvec : pyval) (N K : nat)
    (d : list scalar) (dt : Dtype) : SE world ndarray :=
  results ← se_mapM (fun col => r ← call matvec col; mret (reshape_column r))
                   (matrix_columns N K d dt);
  se_lift (hstack results).

End Vocabulary.

(** ** A concrete setting for the examples

    Integer arrays with exact arithmetic; dtypes are their names; the world
    is the log of the arrays the caller's functions were applied to. *)

Module Example.

#[export] Instance ZEnv : Env := {|
  scalar := Z;
  zero := 0%Z;
  add := Z.add;
  mul := Z.mul;
  conjugate := fun z => z;
  as_integer := Some;
  Dtype := string;
  result_type := fun d _ => d;
  world := list (list Z)
|}.

#[export] Instance ZBuiltins : Builtins ZEnv := {|
  str := fun v =>
    match v with
    | PyDtype d => d
    | PyStr s => s
    | PyInt z => pretty z
    | PyNone => "None"
    | _ => "<object>"
    end;
  dtype_of_descr := fun v =>
    match v with
    | PyStr "int32" => Some "int32"
    | PyStr "int64" => Some "int64"
    | _ => None
    end
|}.

Definition int64 (s : list nat) (d : list Z) : ndarray := mk_ndarray s d "int64".

(** [lambda v: 2 * v.ravel()]: twice the input, as a 1-d array. *)
Definition double_flat : callable :=
  fun v w => (Ok (int64 [length (data v)] (map (Z.mul 2) (data v))), data v :: w).

(** [lambda v: 2 * v]: twice the input, in the input's shape. *)
Definition double : callable :=
  fun v w => (Ok (int64 (shape v) (map (Z.mul 2) (data v))), data v :: w).

Definition shape22 : pyval := PyTuple [PyInt 2; PyInt 2].

Definition eye2 : ndarray := int64 [2; 2] [1; 0; 0; 1]%Z.

(** An instance of a user class with the given attributes. *)
Definition instance (l : list (string * pyval)) : object :=
  mk_object (UserClass "Op") (list_to_map l).

(** Heaps holding one duck-typed object each. *)
Definition bad_shape_object : heap :=
  [instance [("shape", PyInt 5); ("matvec", PyFunction double)]].

Definition long_shape_object : heap :=
  [instance [("shape", PyList [PyInt 3; PyInt 2; PyInt 1]);
             ("matvec", PyFunction double)]].

Definition array_shape_object : heap :=
  [instance [("shape", PyNdarray (int64 [2] [2; 3]%Z));
             ("matvec", PyFunction double)]].

Definition rmatvec_None_object : heap :=
  [instance [("shape", shape22); ("matvec", PyFunction double);
             ("rmatvec", PyNone)]].

Definition full_object : heap :=
  [instance [("shape", shape22); ("matvec", PyFunction double);
             ("rmatvec", PyFunction double); ("matmat", PyFunction double);
             ("dtype", PyStr "int32")]].

(** [LinearOperator((2,2), matvec)] in the empty heap, for three choices of
    [matvec] and [dtype]. *)
Definition plain_operator : result pyval * heap :=
  LinearOperator shape22 (PyFunction double) PyNone PyNone PyNone [].

Definition flat_operator : result pyval * heap :=
  LinearOperator shape22 (PyFunction double_flat) PyNone PyNone PyNone [].

Definition int32_operator : result pyval * heap :=
  LinearOperator shape22 (PyFunction double) PyNone PyNone (PyStr "int32") [].

Definition vector123 : ndarray := int64 [3] [1; 2; 3]%Z.

(** The docstring's [mv]: [array([2*v[0], 3*v[1]])]. *)
Definition mv : callable :=
  fun v w =>
    (Ok (int64 (shape v)
           [2 * nth 0 (data v) 0; 3 * nth 1 (data v) 0]%Z), data v :: w).

(** The docstring's [matrix([[1,2,3],[4,5,6]], dtype='int32')]. *)
Definition M23 : pyval :=
  PyMatrix (mk_ndarray [2; 3] [1; 2; 3; 4; 5; 6]%Z "int32").

(** The spec's [A = [[2,0],[0,3]]]. *)
Definition diag23 : ndarray := int64 [2; 2] [2; 0; 0; 3]%Z.

End Example.

(** * Properties *)

Section Properties.
Context `{B : Builtins}.

Ltac se_unfold :=
  unfold mbind, mret, se_mbind, se_mret, se_bind, se_ret, se_raise, se_lift.

(** *** The heap under [__init__] *)

Lemma alter_snoc {A} (f : A -> A) (l : list A) (x : A) :
  alter f (length l) (l ++ [x]) = l ++ [f x].
Proof. induction l as [|y l IH]; simpl; [done | f_equal; exact IH]. Qed.

Lemma store_snoc name v (h : heap) o :
  store (length h) name v (h ++ [o])
  = h ++ [mk_object (class o) (<[name := v]> (attrs o))].
Proof. unfold store. by rewrite alter_snoc. Qed.

Lemma stored_rmatvec_eq self rmv :
  match rmv with
  | PyNone => setattr self "rmatvec" (PyFunction rmatvec_default)
  | _ => setattr self "rmatvec" rmv
  end = setattr self "rmatvec" (stored_rmatvec rmv).
Proof. by destruct rmv. Qed.

Lemma stored_matmat_eq self mv mm :
  match mm with
  | PyNone => setattr self "matmat" (PyFunction (matmat_default mv))
  | _ => setattr self "matmat" mm
  end = setattr self "matmat" (stored_matmat mv mm).
Proof. by destruct mm. Qed.

Lemma stored_dtype_eq self dt :
  match dt with
  | PyNone => mret ()
  | _ => d ← se_lift (numpy_dtype dt); setattr self "dtype" (PyDtype d)
  end =
  fun h : heap =>
    match stored_dtype dt with
    | Ok None => (Ok (), h)
    | Ok (Some d) => setattr self "dtype" (PyDtype d) h
    | Raise e => (Raise e, h)
    end.
Proof.
  destruct dt; try reflexivity; unfold stored_dtype; se_unfold;
    by destruct (numpy_dtype _).
Qed.

(** [__init__] in one equation: the checks, then the stores in order. *)
Lemma LinearOperator__init___eq self sh mv rmv mm dt (h : heap) :
  LinearOperator__init__ self sh mv rmv mm dt h =
  match tuple sh with
  | Raise e => (Raise e, h)
  | Ok t =>
      if isshape (PyTuple t) then
        let h4 :=
          store self "matmat" (stored_matmat mv mm)
            (store self "rmatvec" (stored_rmatvec rmv)
               (store self "matvec" mv (store self "shape" (PyTuple t) h))) in
        match stored_dtype dt with
        | Ok (Some d) => (Ok (), store self "dtype" (PyDtype d) h4)
        | Ok None => (Ok (), h4)
        | Raise e => (Raise e, h4)
        end
      else (Raise (ValueError "invalid shape"), h)
  end.
Proof.
  unfold LinearOperator__init__.
  rewrite stored_rmatvec_eq, stored_matmat_eq, stored_dtype_eq.
  se_unfold. unfold setattr.
  destruct (tuple sh) as [t|e]; [|done].
  destruct (isshape (PyTuple t)); [|done].
  cbn [negb]. by destruct (stored_dtype dt) as [[d|]|e].
Qed.

(** The constructor call in one equation. *)
Lemma LinearOperator_eq sh mv rmv mm dt (h : heap) :
  LinearOperator sh mv rmv mm dt h =
  match tuple sh with
  | Raise e => (Raise e, h ++ [mk_object LinearOperatorClass ∅])
  | Ok t =>
      if isshape (PyTuple t) then
        match stored_dtype dt with
        | Ok d =>
            (Ok (PyRef (length h)),
             h ++ [mk_object LinearOperatorClass (operator_attrs t mv rmv mm d)])
        | Raise e =>
            (Raise e,
             h ++ [mk_object LinearOperatorClass (operator_attrs t mv rmv mm None)])
        end
      else (Raise (ValueError "invalid shape"),
            h ++ [mk_object LinearOperatorClass ∅])
  end.
Proof.
  unfold LinearOperator, alloc. se_unfold.
  rewrite LinearOperator__init___eq.
  destruct (tuple sh) as [t|e]; [|done].
  destruct (isshape (PyTuple t)); [|done].
  cbv zeta. rewrite !store_snoc.
  destruct (stored_dtype dt) as [[d|]|e]; [|done..].
  by rewrite store_snoc.
Qed.

(** A successful construction, read backwards. *)
Lemma LinearOperator_Ok_inv sh mv rmv mm dt (h : heap) r h' :
  LinearOperator sh mv rmv mm dt h = (Ok r, h') ->
  exists t d,
    tuple sh = Ok t /\ isshape (PyTuple t) = true /\ stored_dtype dt = Ok d /\
    r = PyRef (length h) /\
    h' = h ++ [mk_object LinearOperatorClass (operator_attrs t mv rmv mm d)].
Proof.
  rewrite LinearOperator_eq.
  destruct (tuple sh) as [t|e]; [|done].
  destruct (isshape (PyTuple t)) eqn:Hs; [|done].
  destruct (stored_dtype dt) as [d|e]; [|done].
  intros [= <- <-]. by exists t, d.
Qed.

Lemma getattr_new (h : heap) c m name :
  getattr (h ++ [mk_object c m]) (PyRef (length h)) name = m !! name.
Proof.
  unfold getattr. by rewrite list_lookup_middle.
Qed.

Lemma operator_attrs_lookup t mv rmv mm d :
  let m := operator_attrs t mv rmv mm d in
  m !! "shape" = Some (PyTuple t) /\
  m !! "matvec" = Some mv /\
  m !! "rmatvec" = Some (stored_rmatvec rmv) /\
  m !! "matmat" = Some (stored_matmat mv mm) /\
  m !! "dtype" = PyDtype <$> d.
Proof.
  unfold operator_attrs. destruct d; simpl; repeat split; by simplify_map_eq.
Qed.

(** *** The normalizer, branch by branch *)

Lemma hasattr_Some (h : heap) A name v :
  getattr h A name = Some v -> hasattr h A name = true.
Proof. intros H. unfold hasattr. rewrite H. by apply bool_decide_eq_true_2. Qed.

Lemma hasattr_None (h : heap) A name :
  getattr h A name = None -> hasattr h A name = false.
Proof.
  intros H. unfold hasattr. rewrite H.
  apply bool_decide_eq_false_2. by intros [? ?].
Qed.

(** The duck-typed branch: taken when no earlier case matches. *)
Lemma aslinearoperator_duck A (h : heap) :
  isinstance_LinearOperator h A = false ->
  isinstance_dense A = false ->
  isspmatrix A = false ->
  aslinearoperator A h =
  match getattr h A "shape", getattr h A "matvec" with
  | Some sh, Some mv =>
      LinearOperator sh mv (default PyNone (getattr h A "rmatvec")) PyNone
        (default PyNone (getattr h A "dtype")) h
  | _, _ => (Raise (TypeError "type not understood"), h)
  end.
Proof.
  intros Hi Hd Hs. unfold aslinearoperator. rewrite Hi.
  assert (Hbody :
    (if hasattr h A "shape" && hasattr h A "matvec" then
       (rmatvec ← (if hasattr h A "rmatvec" then attribute A "rmatvec"
                   else mret PyNone);
        dtype ← (if hasattr h A "dtype" then attribute A "dtype"
                 else mret PyNone);
        A_shape ← attribute A "shape";
        A_matvec ← attribute A "matvec";
        LinearOperator A_shape A_matvec rmatvec PyNone dtype) h
     else (Raise (TypeError "type not understood"), h)) =
    match getattr h A "shape", getattr h A "matvec" with
    | Some sh, Some mv =>
        LinearOperator sh mv (default PyNone (getattr h A "rmatvec")) PyNone
          (default PyNone (getattr h A "dtype")) h
    | _, _ => (Raise (TypeError "type not understood"), h)
    end).
  { destruct (getattr h A "shape") as [sh|] eqn:Hsh;
      [rewrite (hasattr_Some _ _ _ _ Hsh) | by rewrite (hasattr_None _ _ _ Hsh)].
    destruct (getattr h A "matvec") as [mv|] eqn:Hmv;
      [rewrite (hasattr_Some _ _ _ _ Hmv) | by rewrite (hasattr_None _ _ _ Hmv)].
    cbn [andb]. se_unfold. unfold attribute.
    destruct (getattr h A "rmatvec") as [f|] eqn:Hf;
      [rewrite (hasattr_Some _ _ _ _ Hf) | rewrite (hasattr_None _ _ _ Hf)];
      (destruct (getattr h A "dtype") as [d|] eqn:Hdt;
       [rewrite (hasattr_Some _ _ _ _ Hdt) | rewrite (hasattr_None _ _ _ Hdt)]);
      cbn; by rewrite ?Hf, ?Hdt, Hsh, Hmv. }
  destruct A; try discriminate; exact Hbody.
Qed.

(** Whatever the normalizer returns is an operator of the heap it leaves. *)
Lemma aslinearoperator_Ok_isinstance A (h : heap) r h' :
  aslinearoperator A h = (Ok r, h') ->
  isinstance_LinearOperator h' r = true.
Proof.
  assert (Hnew : forall sh mv rmv mm dt,
             LinearOperator sh mv rmv mm dt h = (Ok r, h') ->
             isinstance_LinearOperator h' r = true).
  { intros sh mv rmv mm dt H.
    apply LinearOperator_Ok_inv in H as (t & d & _ & _ & _ & -> & ->).
    unfold isinstance_LinearOperator. by rewrite list_lookup_middle. }
  destruct (isinstance_LinearOperator h A) eqn:Hi.
  { unfold aslinearoperator. rewrite Hi. by intros [= <- <-]. }
  destruct (isinstance_dense A) eqn:Hd.
  { unfold aslinearoperator. rewrite Hi.
    destruct A; try discriminate;
      (destruct (2 <? length (shape a)); [done | apply Hnew]). }
  destruct (isspmatrix A) eqn:Hs.
  { unfold aslinearoperator. rewrite Hi.
    destruct A; try discriminate. apply Hnew. }
  rewrite aslinearoperator_duck by done.
  destruct (getattr h A "shape"); [|done].
  destruct (getattr h A "matvec"); [|done]. apply Hnew.
Qed.

(** C5. Normalizing a value that is already a [LinearOperator] returns that
    very reference and leaves the heap as it was: no instance is created and
    nothing is wrapped.  Hence normalization is idempotent: normalizing the
    result of a successful normalization returns it again, unchanged. *)
Theorem aslinearoperator_operator_identity (A : pyval) (h : heap) :
  (isinstance_LinearOperator h A = true -> aslinearoperator A h = (Ok A, h)) /\
  (forall r h',
      aslinearoperator A h = (Ok r, h') -> aslinearoperator r h' = (Ok r, h')).
Proof.
  assert (Hid : forall (A : pyval) (h : heap),
             isinstance_LinearOperator h A = true ->
             aslinearoperator A h = (Ok A, h)).
  { intros A0 h0 Hi. unfold aslinearoperator. by rewrite Hi. }
  split; [apply Hid|].
  intros r h' H. apply Hid. by eapply aslinearoperator_Ok_isinstance.
Qed.

(** C6. A dense array or matrix with more than two dimensions is refused with
    [ValueError('array must have rank <= 2')] (the spec's InvalidRank), and
    the heap is left as it was: no operator instance has been created. *)
Theorem aslinearoperator_rank_error (A : pyval) (a : ndarray) (h : heap) :
  A = PyNdarray a \/ A = PyMatrix a ->
  2 < ndim a ->
  aslinearoperator A h = (Raise (ValueError "array must have rank <= 2"), h).
Proof.
  intros HA Hrank. unfold ndim in Hrank.
  apply Nat.ltb_lt in Hrank.
  destruct HA as [-> | ->]; unfold aslinearoperator; simpl; by rewrite Hrank.
Qed.

(** C7. A value that is not a [LinearOperator], not a dense array or matrix,
    not a sparse matrix, and that lacks a [shape] or a [matvec] attribute is
    refused with [TypeError('type not understood')] (the spec's
    UnsupportedType); the heap is left as it was. *)
Theorem aslinearoperator_type_error (A : pyval) (h : heap) :
  isinstance_LinearOperator h A = false ->
  isinstance_dense A = false ->
  isspmatrix A = false ->
  hasattr h A "shape" && hasattr h A "matvec" = false ->
  aslinearoperator A h = (Raise (TypeError "type not understood"), h).
Proof.
  intros Hi Hd Hs Hattr. rewrite aslinearoperator_duck by done.
  destruct (getattr h A "shape") as [sh|] eqn:Hsh; [|done].
  destruct (getattr h A "matvec") as [mv|] eqn:Hmv; [|done].
  by rewrite (hasattr_Some _ _ _ _ Hsh), (hasattr_Some _ _ _ _ Hmv) in Hattr.
Qed.

(** *** Shapes *)

(** The spec's predicate on the argument is the code's [isshape] after
    [tuple]. *)
Lemma valid_shape_argument_spec (sh : pyval) :
  valid_shape_argument sh =
  match tuple sh with
  | Ok t => isshape (PyTuple t)
  | Raise _ => false
  end.
Proof.
  destruct sh as [| | s | xs | xs | | a | a | s | |]; try reflexivity.
  - simpl. destruct (list_ascii_of_string s) as [|c1 [|c2 [|c3 l]]]; reflexivity.
  - unfold valid_shape_argument, tuple, iter.
    destruct (shape a) as [|d [|r rest]]; [done| |].
    + destruct d as [|[|[|d]]]; cbn [chunks map prod_dims foldr]; [done|..].
      * by destruct (element _).
      * unfold element. cbn [shape data].
        destruct (data a) as [|v0 [|v1 l]]; cbn; [done| |].
        -- by destruct (as_integer v0).
        -- by destruct (as_integer v0), (as_integer v1).
      * set (x0 := element _). set (x1 := element _).
        destruct x0; try done; by destruct x1.
    + destruct d as [|[|[|d]]]; by cbn.
  - simpl. destruct (iter a) as [l|e]; [|done].
    destruct l as [|x1 [|x2 [|x3 l]]]; reflexivity.
  - simpl. destruct (sp_rows s) as [|x1 [|x2 [|x3 l]]]; reflexivity.
Qed.

Lemma tuple_error_not_type_not_understood (sh : pyval) e :
  tuple sh = Raise e -> e <> TypeError "type not understood".
Proof.
  destruct sh as [| | s | xs | xs | | a | a | | |]; simpl;
    try (intros [= <-]; discriminate); try discriminate.
  all: unfold iter; destruct (shape a); simpl; try discriminate;
    intros [= <-]; discriminate.
Qed.

Lemma LinearOperator_rejects_shape (sh mv rmv mm dt : pyval) (h : heap) :
  valid_shape_argument sh = false ->
  LinearOperator sh mv rmv mm dt h
  = (Raise (match tuple sh with
            | Ok _ => ValueError "invalid shape"
            | Raise e => e
            end), h ++ [mk_object LinearOperatorClass ∅]).
Proof.
  intros Hv. rewrite valid_shape_argument_spec in Hv.
  rewrite LinearOperator_eq.
  destruct (tuple sh) as [t|e]; [|done]. by rewrite Hv.
Qed.

(** C4 (amended). When the shape argument is not a sequence of exactly two
    non-negative integers, [__init__] raises and leaves the heap as it was:
    no attribute of the instance has been set, and the instance the
    constructor call created has an empty attribute dictionary.  The
    exception is [ValueError('invalid shape')] (the spec's InvalidShape)
    whenever the argument can be iterated; an argument that cannot be
    iterated fails earlier, in [tuple(shape)], with that call's
    [TypeError]. *)
Theorem LinearOperator_invalid_shape
    (self : loc) (sh mv rmv mm dt : pyval) (h : heap) :
  valid_shape_argument sh = false ->
  let e := match tuple sh with
           | Ok _ => ValueError "invalid shape"
           | Raise e => e
           end in
  LinearOperator__init__ self sh mv rmv mm dt h = (Raise e, h) /\
  LinearOperator sh mv rmv mm dt h
  = (Raise e, h ++ [mk_object LinearOperatorClass ∅]).
Proof.
  intros Hv e. subst e. split; [|by apply LinearOperator_rejects_shape].
  rewrite valid_shape_argument_spec in Hv.
  rewrite LinearOperator__init___eq.
  destruct (tuple sh) as [t|e]; [|done]. by rewrite Hv.
Qed.

(** C10 (amended). For a duck-typed object (no earlier case of the normalizer
    applies, and it has a [shape] and a [matvec] attribute) whose [shape] is
    not a sequence of exactly two non-negative integers, normalization fails
    inside the constructor, which received the attribute as it is: with
    [ValueError('invalid shape')] when the attribute can be iterated, with
    the [TypeError] of [tuple(shape)] when it cannot.  In neither case is the
    exception the normalizer's own [TypeError('type not understood')], and
    the instance that was created has no attribute. *)
Theorem aslinearoperator_duck_invalid_shape
    (A sh mv : pyval) (h : heap) :
  isinstance_LinearOperator h A = false ->
  isinstance_dense A = false ->
  isspmatrix A = false ->
  getattr h A "shape" = Some sh ->
  getattr h A "matvec" = Some mv ->
  valid_shape_argument sh = false ->
  let e := match tuple sh with
           | Ok _ => ValueError "invalid shape"
           | Raise e => e
           end in
  aslinearoperator A h = (Raise e, h ++ [mk_object LinearOperatorClass ∅]) /\
  e <> TypeError "type not understood".
Proof.
  intros Hi Hd Hs Hsh Hmv Hv e. subst e.
  rewrite aslinearoperator_duck by done. rewrite Hsh, Hmv. split.
  - by apply LinearOperator_rejects_shape.
  - destruct (tuple sh) as [t|e] eqn:Ht; [done|].
    by eapply tuple_error_not_type_not_understood.
Qed.

(** *** The stored behaviours *)

Lemma tuple_error_TypeError (sh : pyval) e :
  tuple sh = Raise e -> exists msg, e = TypeError msg.
Proof.
  destruct sh as [| | s | xs | xs | | a | a | | |]; simpl;
    try (intros [= <-]; eauto); try discriminate.
  all: unfold iter; destruct (shape a); simpl; try discriminate;
    intros [= <-]; eauto.
Qed.

Lemma stored_dtype_error_TypeError (dt : pyval) e :
  stored_dtype dt = Raise e -> exists msg, e = TypeError msg.
Proof.
  unfold stored_dtype, numpy_dtype.
  destruct dt; try discriminate; destruct (dtype_of_descr _);
    try discriminate; intros [= <-]; eauto.
Qed.

(** C3 (amended). An operator constructed without [rmatvec] holds, in its
    [rmatvec] slot, a function: calling it raises
    [NotImplementedError('rmatvec is not defined')] (the spec's
    UnsupportedOperation; the message is the code's) on every input and
    leaves the caller's world untouched.  The construction itself never
    raises that exception. *)
Theorem rmatvec_default_raises (sh mv mm dt : pyval) (h : heap) :
  (forall r h',
      LinearOperator sh mv PyNone mm dt h = (Ok r, h') ->
      getattr h' r "rmatvec" = Some (PyFunction rmatvec_default) /\
      forall v w,
        invoke h' r "rmatvec" v w
        = (Raise (NotImplementedError "rmatvec is not defined"), w)) /\
  (forall e h',
      LinearOperator sh mv PyNone mm dt h = (Raise e, h') ->
      forall msg, e <> NotImplementedError msg).
Proof.
  split.
  - intros r h' H.
    apply LinearOperator_Ok_inv in H as (t & d & _ & _ & _ & -> & ->).
    assert (Hslot : getattr (h ++ [mk_object LinearOperatorClass
                                     (operator_attrs t mv PyNone mm d)])
                      (PyRef (length h)) "rmatvec"
                    = Some (PyFunction rmatvec_default)).
    { rewrite getattr_new.
      apply (operator_attrs_lookup t mv PyNone mm d). }
    split; [exact Hslot|]. intros v w. unfold invoke. by rewrite Hslot.
  - intros e h'. rewrite LinearOperator_eq.
    destruct (tuple sh) as [t|e0] eqn:Ht.
    + destruct (isshape (PyTuple t)).
      * destruct (stored_dtype dt) as [d|e1] eqn:Hd; [done|].
        intros [= <- _] msg.
        apply stored_dtype_error_TypeError in Hd as [m ->]. discriminate.
      * intros [= <- _] msg. discriminate.
    + intros [= <- _] msg.
      apply tuple_error_TypeError in Ht as [m ->]. discriminate.
Qed.

Lemma isshape_inv (t : list pyval) :
  isshape (PyTuple t) = true ->
  exists M N, t = [PyInt M; PyInt N] /\ (0 <= M)%Z /\ (0 <= N)%Z.
Proof.
  destruct t as [|[] [|[] [|? ?]]]; simpl; try discriminate.
  intros H. apply andb_true_iff in H as [H1 H2].
  apply Z.leb_le in H1, H2. eauto.
Qed.

(** C9 (amended). For an operator constructed with shape [(M, N)],
    [__repr__] returns ["<MxN LinearOperator with unspecified dtype>"] when
    no dtype was given, and then the instance has no [dtype] attribute; when
    a dtype was given it returns ["<MxN LinearOperator with dtype=D>"], where
    [D] is [str] of [numpy.dtype(dtype)], which is the stored attribute.  [M]
    and [N] are printed in decimal and the angle brackets are part of the
    string. *)
Theorem LinearOperator_repr (sh mv rmv mm dt : pyval) (h : heap) r h' :
  LinearOperator sh mv rmv mm dt h = (Ok r, h') ->
  exists M N,
    tuple sh = Ok [PyInt M; PyInt N] /\ (0 <= M)%Z /\ (0 <= N)%Z /\
    (dt = PyNone ->
     getattr h' r "dtype" = None /\
     LinearOperator__repr__ r h'
     = (Ok ("<" +:+ pretty M +:+ "x" +:+ pretty N +:+ " LinearOperator with "
              +:+ "unspecified dtype" +:+ ">"), h')) /\
    (dt <> PyNone ->
     exists d,
       numpy_dtype dt = Ok d /\
       getattr h' r "dtype" = Some (PyDtype d) /\
       LinearOperator__repr__ r h'
       = (Ok ("<" +:+ pretty M +:+ "x" +:+ pretty N +:+ " LinearOperator with "
                +:+ ("dtype=" +:+ str (PyDtype d)) +:+ ">"), h')).
Proof.
  intros H.
  apply LinearOperator_Ok_inv in H as (t & d & Ht & Hs & Hd & -> & ->).
  apply isshape_inv in Hs as (M & N & -> & HM & HN).
  exists M, N. split; [done|]. split; [done|]. split; [done|].
  pose proof (operator_attrs_lookup [PyInt M; PyInt N] mv rmv mm d)
    as (Hshape & _ & _ & _ & Hdtype).
  assert (Hrepr : forall od,
    operator_attrs [PyInt M; PyInt N] mv rmv mm d !! "dtype" = od ->
    LinearOperator__repr__ (PyRef (length h))
      (h ++ [mk_object LinearOperatorClass
               (operator_attrs [PyInt M; PyInt N] mv rmv mm d)])
    = (Ok ("<" +:+ pretty M +:+ "x" +:+ pretty N +:+ " LinearOperator with "
             +:+ match od with
                 | Some v => "dtype=" +:+ str v
                 | None => "unspecified dtype"
                 end +:+ ">"),
       h ++ [mk_object LinearOperatorClass
               (operator_attrs [PyInt M; PyInt N] mv rmv mm d)])).
  { intros od Hod. unfold LinearOperator__repr__, attribute, py_hasattr.
    se_unfold. rewrite getattr_new, Hshape. cbn.
    destruct od as [v|].
    - rewrite (hasattr_Some _ _ _ v) by (by rewrite getattr_new).
      rewrite list_lookup_middle by done. simpl. by rewrite Hod.
    - by rewrite hasattr_None by (by rewrite getattr_new). }
  split.
  - intros ->. simpl in Hd. injection Hd as <-.
    rewrite getattr_new. split; [exact Hdtype|]. exact (Hrepr None Hdtype).
  - intros Hne.
    assert (exists d0, numpy_dtype dt = Ok d0 /\ d = Some d0) as (d0 & Hd0 & ->).
    { unfold stored_dtype in Hd.
      destruct dt; try done; destruct (numpy_dtype _); try done;
        injection Hd as <-; eauto. }
    exists d0. rewrite getattr_new. split; [done|]. split; [exact Hdtype|].
    exact (Hrepr (Some (PyDtype d0)) Hdtype).
Qed.

(** *** The duck-typed and the dense branch *)

(** C8 (amended). For a duck-typed object (no earlier case applies; it has a
    [shape] and a [matvec] attribute), the operator the normalizer produces
    has the object's [matvec] in its [matvec] slot; its [matmat] is the one
    synthesized from that [matvec], whatever else the object has; its
    [rmatvec] is the object's [rmatvec] attribute when the object has one
    that is not [None], and the failing stand-in otherwise; its [dtype] is
    [numpy.dtype] of the object's [dtype] attribute when the object has one
    that is not [None], and is absent otherwise. *)
Theorem aslinearoperator_duck_typed (A sh mv : pyval) (h : heap) r h' :
  isinstance_LinearOperator h A = false ->
  isinstance_dense A = false ->
  isspmatrix A = false ->
  getattr h A "shape" = Some sh ->
  getattr h A "matvec" = Some mv ->
  aslinearoperator A h = (Ok r, h') ->
  getattr h' r "matvec" = Some mv /\
  getattr h' r "matmat" = Some (PyFunction (matmat_default mv)) /\
  getattr h' r "rmatvec" =
    Some (match getattr h A "rmatvec" with
          | None | Some PyNone => PyFunction rmatvec_default
          | Some f => f
          end) /\
  match getattr h A "dtype" with
  | None | Some PyNone => getattr h' r "dtype" = None
  | Some v =>
      exists d, numpy_dtype v = Ok d /\ getattr h' r "dtype" = Some (PyDtype d)
  end.
Proof.
  intros Hi Hd Hs Hsh Hmv. rewrite aslinearoperator_duck by done.
  rewrite Hsh, Hmv. intros H.
  apply LinearOperator_Ok_inv in H as (t & d & _ & _ & Hdt & -> & ->).
  rewrite !getattr_new.
  pose proof (operator_attrs_lookup t mv
                (default PyNone (getattr h A "rmatvec")) PyNone d)
    as (_ & Hm & Hr & Hmm & Hdtype).
  split; [exact Hm|]. split; [exact Hmm|]. split.
  - rewrite Hr. f_equal. by destruct (getattr h A "rmatvec") as [[]|].
  - rewrite Hdtype. unfold stored_dtype in Hdt.
    destruct (getattr h A "dtype") as [v|]; simpl in Hdt;
      [|by injection Hdt as <-].
    destruct v; try (by injection Hdt as <-);
      (destruct (numpy_dtype _) as [nd|]; [|done]);
      injection Hdt as <-; by exists nd.
Qed.

Lemma isshape_of_nat (m n : nat) :
  isshape (PyTuple [PyInt (Z.of_nat m); PyInt (Z.of_nat n)]) = true.
Proof.
  simpl. apply andb_true_iff. split; apply Z.leb_le; lia.
Qed.

Lemma atleast_2d_ndim (a : ndarray) :
  ndim a <= 2 -> exists m n, shape (atleast_2d a) = [m; n].
Proof.
  unfold ndim, atleast_2d.
  destruct (shape a) as [|m [|n [|k s]]] eqn:Hs; simpl; intros Hle;
    rewrite ?Hs; eauto. lia.
Qed.

(** C2 (amended). For a dense array or matrix [a] of rank at most 2, let
    [A2] be [a] coerced to two dimensions ([atleast_2d]: [a] itself when its
    rank is 2, one row when its rank is 1, one element when its rank is 0).
    Normalization succeeds and creates an operator of shape [A2.shape] whose
    [matvec], [rmatvec] and [matmat] slots hold functions computing
    [dot(A2, x)], [dot(A2.conj().transpose(), v)] and [dot(A2, V)] on every
    input, without touching the caller's world, and whose [dtype] is the
    array's dtype. *)
Theorem aslinearoperator_dense (A : pyval) (a : ndarray) (h : heap) :
  A = PyNdarray a \/ A = PyMatrix a ->
  ndim a <= 2 ->
  let A2 := atleast_2d a in
  exists r h' f g m,
    aslinearoperator A h = (Ok r, h') /\
    getattr h' r "shape" = Some (shape_tuple (shape A2)) /\
    getattr h' r "matvec" = Some (PyFunction f) /\
    (forall x w, f x w = (dot A2 x, w)) /\
    getattr h' r "rmatvec" = Some (PyFunction g) /\
    (forall v w, g v w = (dot (transpose (conj A2)) v, w)) /\
    getattr h' r "matmat" = Some (PyFunction m) /\
    (forall V w, m V w = (dot A2 V, w)) /\
    getattr h' r "dtype" = Some (PyDtype (dtype a)) /\
    (ndim a = 2 -> A2 = a).
Proof.
  intros HA Hrank A2.
  destruct (atleast_2d_ndim a Hrank) as (m0 & n0 & Hshape). fold A2 in Hshape.
  assert (Hdt : dtype A2 = dtype a).
  { unfold A2, atleast_2d. by destruct (shape a) as [|? [|? ?]]. }
  assert (Hsame : ndim a = 2 -> A2 = a).
  { unfold A2, atleast_2d, ndim. by destruct (shape a) as [|? [|? ?]]. }
  set (f := fun v : ndarray => se_lift (S := world) (dot A2 v)).
  set (g := fun v : ndarray =>
              se_lift (S := world) (dot (transpose (conj A2)) v)).
  assert (Hrun : aslinearoperator A h
                 = LinearOperator (shape_tuple (shape A2)) (PyFunction f)
                     (PyFunction g) (PyFunction f) (PyDtype (dtype A2)) h).
  { assert (Hlt : (2 <? length (shape a)) = false)
      by (apply Nat.ltb_ge; exact Hrank).
    destruct HA as [-> | ->]; unfold aslinearoperator; simpl;
      by rewrite Hlt. }
  rewrite LinearOperator_eq in Hrun. rewrite Hshape in Hrun.
  cbn [tuple shape_tuple map] in Hrun.
  rewrite isshape_of_nat in Hrun. cbn [stored_dtype numpy_dtype] in Hrun.
  eexists _, _, f, g, f. split; [exact Hrun|].
  rewrite !getattr_new, <- Hdt.
  pose proof (operator_attrs_lookup
                [PyInt (Z.of_nat m0); PyInt (Z.of_nat n0)]
                (PyFunction f) (PyFunction g) (PyFunction f)
                (Some (dtype A2)))
    as (H1 & H2 & H3 & H4 & H5).
  repeat split; try done. by rewrite Hshape.
Qed.

(** *** Columns of a matrix *)

Lemma chunks_seq {A} (k sz : nat) (l : list A) :
  chunks k sz l = map (fun i => take sz (drop (i * sz) l)) (seq 0 k).
Proof.
  revert l. induction k as [|k IH]; intros l; [done|].
  cbn [chunks seq map]. rewrite drop_0. f_equal.
  rewrite IH, <- seq_shift, map_map.
  apply map_ext. intros i. by rewrite drop_drop.
Qed.

Lemma chunks_concat {A} (sz : nat) (ls : list (list A)) :
  Forall (fun l => length l = sz) ls ->
  chunks (length ls) sz (concat ls) = ls.
Proof.
  induction 1 as [|l ls Hl _ IH]; [done|].
  cbn [length chunks concat].
  rewrite take_app_length' by done. rewrite drop_app_length' by done.
  by rewrite IH.
Qed.

Lemma nth_take_drop {A} (l : list A) (z : A) (sz i p : nat) :
  p < sz -> nth p (take sz (drop i l)) z = nth (i + p) l z.
Proof.
  intros Hp. rewrite !nth_lookup.
  by rewrite lookup_take_lt, lookup_drop.
Qed.

Lemma nth_map_seq {A} (f : nat -> A) (z : A) (n p : nat) :
  p < n -> nth p (map f (seq 0 n)) z = f p.
Proof.
  intros Hp.
  rewrite (nth_indep _ z (f 0)) by (by rewrite length_map, length_seq).
  rewrite (map_nth f (seq 0 n) 0 p). by rewrite seq_nth.
Qed.

Lemma map_seq_ext {A} (f g : nat -> A) (n : nat) :
  (forall i, i < n -> f i = g i) -> map f (seq 0 n) = map g (seq 0 n).
Proof.
  intros H. apply map_ext_in. intros i Hi. apply in_seq in Hi. apply H. lia.
Qed.

(** A 1-d array is its own transpose, cut off or padded to its length. *)
Lemma transpose_data_1d (K : nat) (row : list scalar) :
  transpose_data [K] row = map (fun i => nth i row zero) (seq 0 K).
Proof.
  cbn [transpose_data prod_dims foldr seq map concat].
  rewrite app_nil_r, chunks_seq, !map_map.
  apply map_ext. intros i.
  rewrite (nth_take_drop row zero 1 (i * 1) 0) by lia. f_equal. lia.
Qed.

(** The transpose of an [N] by [K] matrix lists its columns one after the
    other. *)
Lemma transpose_data_2d (N K : nat) (d : list scalar) :
  transpose_data [N; K] d =
  concat (map (fun p => map (fun i => nth (i * K + p) d zero) (seq 0 N))
              (seq 0 K)).
Proof.
  change (transpose_data [N; K] d) with
    (let ts := map (transpose_data [K]) (chunks N (prod_dims [K]) d) in
     concat (map (fun p => map (fun t => nth p t zero) ts)
                 (seq 0 (prod_dims [K])))).
  cbv zeta. replace (prod_dims [K]) with K by (simpl; lia).
  f_equal. apply map_seq_ext. intros p Hp.
  rewrite chunks_seq, !map_map. apply map_ext. intros i.
  rewrite transpose_data_1d, nth_map_seq by done.
  by apply nth_take_drop.
Qed.

Lemma iter_transpose_2d (N K : nat) (d : list scalar) (dt : Dtype) :
  iter (transpose (mk_ndarray [N; K] d dt)) =
  Ok (map (fun p =>
             mk_ndarray [N] (map (fun i => nth (i * K + p) d zero) (seq 0 N)) dt)
          (seq 0 K)).
Proof.
  unfold iter, transpose. cbn [shape data dtype rev app].
  rewrite transpose_data_2d. f_equal.
  replace (prod_dims [N]) with N by (simpl; lia).
  set (cols := map _ (seq 0 K)).
  assert (Hlen : length cols = K) by (unfold cols; by rewrite length_map, length_seq).
  rewrite <- Hlen at 1. rewrite chunks_concat.
  - unfold cols. by rewrite map_map.
  - unfold cols. apply Forall_forall. intros l Hl.
    apply list_elem_of_In, in_map_iff in Hl as (p & <- & _).
    by rewrite length_map, length_seq.
Qed.

Lemma se_mapM_map {S A A' B'} (f : A' -> SE S B') (g : A -> A') (l : list A) :
  se_mapM f (map g l) = se_mapM (fun x => f (g x)) l.
Proof. induction l as [|x l IH]; [done|]. cbn [map se_mapM]. by rewrite IH. Qed.

Lemma se_mapM_length {S A B'} (f : A -> SE S B') (l : list A) s rs s' :
  se_mapM f l s = (Ok rs, s') -> length rs = length l.
Proof.
  revert s rs. induction l as [|x l IH]; intros s rs; cbn [se_mapM].
  - by intros [= <- _].
  - se_unfold. destruct (f x s) as [[y|e] s1]; [|done].
    destruct (se_mapM f l s1) as [[ys|e] s2] eqn:Hl; [|done].
    intros [= <- <-]. cbn. f_equal. by eapply IH.
Qed.

(** The synthesized [matmat] on an [N] by [K] matrix: [matvec] on the columns,
    from left to right, then [hstack] of what it returned. *)
Lemma matmat_default_columns (mv : pyval) (N K : nat) (d : list scalar)
    (dt : Dtype) (w : world) :
  matmat_default mv (mk_ndarray [N; K] d dt) w =
  (results ← se_mapM (call mv) (matrix_columns N K d dt);
   se_lift (hstack results)) w.
Proof.
  unfold matmat_default, asarray. rewrite iter_transpose_2d.
  unfold matrix_columns. se_unfold. cbn beta iota.
  rewrite !se_mapM_map.
  unfold reshape_column, matrix_column. cbn [shape data dtype prod_dims foldr].
  by rewrite Nat.mul_1_r.
Qed.

(** *** [hstack] of columns *)

Lemma take_1_drop {A} (l : list A) (z : A) (i : nat) :
  i < length l -> take 1 (drop i l) = [nth i l z].
Proof.
  revert i. induction l as [|x l IH]; intros i Hi; simpl in Hi; [lia|].
  destruct i as [|i]; [done|]. cbn [drop nth]. apply IH. lia.
Qed.

Lemma is_column_entry (M : nat) (r : ndarray) (i : nat) :
  is_column M r -> i < M ->
  nth i (chunks M (nth 1 (shape r) 0 * prod_dims []) (data r)) []
  = [nth i (data r) zero].
Proof.
  intros [Hs Hwf] Hi. unfold wf_ndarray in Hwf. rewrite Hs in *.
  cbn in Hwf. cbn [nth prod_dims foldr].
  rewrite chunks_seq, nth_map_seq by done.
  replace (i * (1 * 1)) with i by lia.
  apply take_1_drop. lia.
Qed.

Lemma hstack_columns (M : nat) (c : ndarray) (rest : list ndarray) :
  Forall (is_column M) (c :: rest) ->
  hstack (c :: rest) = Ok (matrix_of_columns M c rest).
Proof.
  intros Hall.
  assert (Hid : map atleast_1d (c :: rest) = c :: rest).
  { rewrite <- (map_id (c :: rest)) at 2. apply map_ext_in.
    intros r Hr. rewrite Forall_forall in Hall.
    destruct (Hall r) as [Hs _]; [by apply list_elem_of_In|].
    unfold atleast_1d. by rewrite Hs. }
  unfold hstack. rewrite Hid.
  pose proof (Forall_inv Hall) as [Hc _]. rewrite Hc.
  assert (Hok : forallb (fun a => bool_decide
                  (shape a = [M; nth 1 (shape a) 0])) rest = true).
  { apply forallb_forall. intros r Hr. apply bool_decide_eq_true_2.
    rewrite Forall_forall in Hall.
    destruct (Hall r) as [Hs _]; [apply list_elem_of_In; by right|].
    by rewrite Hs. }
  rewrite Hok. unfold matrix_of_columns. f_equal. f_equal.
  - f_equal. f_equal.
    clear Hid Hc Hok. induction Hall as [|r rs [Hs _] _ IH]; [done|].
    cbn [map sum_list length]. rewrite Hs. cbn [nth]. by rewrite IH.
  - f_equal. apply map_seq_ext. intros i Hi.
    clear Hid Hc Hok. induction Hall as [|r rs Hr _ IH]; [done|].
    cbn [flat_map map]. rewrite is_column_entry by done. by rewrite IH.
Qed.

(** C1 (amended). An operator constructed without [matmat] holds the
    synthesized function in its [matmat] slot.  On an [N] by [K] matrix it
    calls the constructor's [matvec] once on each column, from left to right,
    each column passed as an [N] by 1 array, and returns [hstack] of the
    values [matvec] returned, as they are: in the caller's world and in its
    result it is those calls in that order (an exception of a call ends it
    there).  When the calls return [M] by 1 columns and [K] is not zero, the
    result is the [M] by [K] matrix having these columns from left to
    right; when [K] is zero there is nothing to join and [hstack] raises. *)
Theorem matmat_default_by_columns (sh mv rmv dt : pyval) (h : heap) r h' :
  LinearOperator sh mv rmv PyNone dt h = (Ok r, h') ->
  exists mm,
    getattr h' r "matmat" = Some (PyFunction mm) /\
    forall (N K : nat) (d : list scalar) (dtp : Dtype) (w : world),
      let V := mk_ndarray [N; K] d dtp in
      mm V w
      = (results ← se_mapM (call mv) (matrix_columns N K d dtp);
         se_lift (hstack results)) w /\
      (forall (M : nat) (c : ndarray) (rest : list ndarray) (w' : world),
          se_mapM (call mv) (matrix_columns N K d dtp) w = (Ok (c :: rest), w') ->
          Forall (is_column M) (c :: rest) ->
          mm V w = (Ok (matrix_of_columns M c rest), w') /\
          shape (matrix_of_columns M c rest) = [M; K]) /\
      (K = 0 ->
       mm V w = (Raise (ValueError "need at least one array to concatenate"), w)).
Proof.
  intros H.
  apply LinearOperator_Ok_inv in H as (t & od & _ & _ & _ & -> & ->).
  exists (matmat_default mv). split.
  { rewrite getattr_new. apply (operator_attrs_lookup t mv rmv PyNone od). }
  intros N K d dtp w V. split; [apply matmat_default_columns|]. split.
  - intros M c rest w' Hcalls Hcols. split.
    + unfold V. rewrite matmat_default_columns. se_unfold.
      rewrite Hcalls. by rewrite (hstack_columns M).
    + apply se_mapM_length in Hcalls.
      unfold matrix_columns in Hcalls. rewrite length_map, length_seq in Hcalls.
      unfold matrix_of_columns. cbn [shape]. by rewrite Hcalls.
  - intros ->. unfold V. by rewrite matmat_default_columns.
Qed.

End Properties.

(** * Further properties of the constructor and the normalizer *)

Section FurtherProperties.
Context `{B : Builtins}.

Ltac se_unfold :=
  unfold mbind, mret, se_mbind, se_mret, se_bind, se_ret, se_raise, se_lift.

(** *** What the normalizer leaves alone *)

Lemma LinearOperator_allocates sh mv rmv mm dt (h : heap) x h' :
  LinearOperator sh mv rmv mm dt h = (x, h') ->
  exists o, h' = h ++ [o].
Proof.
  rewrite LinearOperator_eq.
  destruct (tuple sh) as [t|e]; [|intros [= _ <-]; eauto].
  destruct (isshape (PyTuple t)); [|intros [= _ <-]; eauto].
  destruct (stored_dtype dt); intros [= _ <-]; eauto.
Qed.

(** X7. Whatever its argument and whatever its outcome, [aslinearoperator]
    leaves every instance of the heap as it was (in particular the object it
    was given) and creates at most one new instance. *)
Theorem aslinearoperator_frame (A : pyval) (h : heap) x h' :
  aslinearoperator A h = (x, h') ->
  (forall a o, h !! a = Some o -> h' !! a = Some o) /\
  length h <= length h' <= S (length h).
Proof.
  intros H.
  assert (Hcases : h' = h \/ exists o, h' = h ++ [o]).
  { destruct (isinstance_LinearOperator h A) eqn:Hi.
    { unfold aslinearoperator in H. rewrite Hi in H. injection H as _ <-.
      by left. }
    destruct (isinstance_dense A) eqn:Hd.
    { unfold aslinearoperator in H. rewrite Hi in H.
      destruct A; try discriminate;
        (destruct (2 <? length (shape a));
         [injection H as _ <-; by left
         | right; by eapply LinearOperator_allocates]). }
    destruct (isspmatrix A) eqn:Hs.
    { unfold aslinearoperator in H. rewrite Hi in H.
      destruct A; try discriminate.
      right. by eapply LinearOperator_allocates. }
    rewrite aslinearoperator_duck in H by done.
    destruct (getattr h A "shape"); [|injection H as _ <-; by left].
    destruct (getattr h A "matvec"); [|injection H as _ <-; by left].
    right. by eapply LinearOperator_allocates. }
  destruct Hcases as [-> | [o ->]].
  - split; [done | lia].
  - split.
    + intros a o' Ha. by apply lookup_app_l_Some.
    + rewrite length_app. simpl. lia.
Qed.

(** *** The sparse branch *)

(** X1. For a sparse matrix, the operator the normalizer produces holds the
    matrix's own bound methods: [matvec] and [rmatvec] in the slots of the
    same name and [dot] in the [matmat] slot, so [matmat] is the matrix's
    product and is not synthesized from [matvec]; shape and dtype are the
    matrix's. *)
Theorem aslinearoperator_sparse (s : spmatrix) (h : heap) r h' :
  aslinearoperator (PySpmatrix s) h = (Ok r, h') ->
  getattr h' r "shape"
  = Some (PyTuple [PyInt (Z.of_nat (fst (sp_shape s)));
                   PyInt (Z.of_nat (snd (sp_shape s)))]) /\
  getattr h' r "matvec" = Some (PyFunction (sp_matvec s)) /\
  getattr h' r "rmatvec" = Some (PyFunction (sp_rmatvec s)) /\
  getattr h' r "matmat" = Some (PyFunction (sp_dot s)) /\
  getattr h' r "dtype" = Some (PyDtype (sp_dtype s)) /\
  (forall V w, invoke h' r "matmat" V w = sp_dot s V w) /\
  (forall v w, invoke h' r "rmatvec" v w = sp_rmatvec s v w).
Proof.
  unfold aslinearoperator. cbn [isinstance_LinearOperator]. intros H.
  apply LinearOperator_Ok_inv in H as (t & d & Ht & _ & Hd & -> & ->).
  cbn in Ht. injection Ht as <-. cbn in Hd. injection Hd as <-.
  pose proof (operator_attrs_lookup
                [PyInt (Z.of_nat (fst (sp_shape s)));
                 PyInt (Z.of_nat (snd (sp_shape s)))]
                (PyFunction (sp_matvec s)) (PyFunction (sp_rmatvec s))
                (PyFunction (sp_dot s)) (Some (sp_dtype s)))
    as (H1 & H2 & H3 & H4 & H5).
  unfold invoke. rewrite !getattr_new, H3, H4.
  repeat split; done.
Qed.

(** *** The constructor's postconditions *)

(** X2. A [rmatvec] and a [matmat] that are supplied (not [None]) are stored
    as they are: calling the operator's [matmat] is calling the supplied
    function, which never goes through [matvec], and calling its [rmatvec]
    is calling the supplied one. *)
Theorem LinearOperator_supplied (sh mv rmv mm dt : pyval) (h : heap) r h' :
  rmv <> PyNone ->
  mm <> PyNone ->
  LinearOperator sh mv rmv mm dt h = (Ok r, h') ->
  getattr h' r "rmatvec" = Some rmv /\
  getattr h' r "matmat" = Some mm /\
  (forall V w, invoke h' r "matmat" V w = call mm V w) /\
  (forall v w, invoke h' r "rmatvec" v w = call rmv v w).
Proof.
  intros Hr Hm H.
  apply LinearOperator_Ok_inv in H as (t & d & _ & _ & _ & -> & ->).
  pose proof (operator_attrs_lookup t mv rmv mm d) as (_ & _ & H3 & H4 & _).
  assert (Hsr : stored_rmatvec rmv = rmv) by (by destruct rmv).
  assert (Hsm : stored_matmat mv mm = mm) by (by destruct mm).
  rewrite Hsr in H3. rewrite Hsm in H4.
  unfold invoke. rewrite !getattr_new, H3, H4. repeat split; done.
Qed.

(** X3. The [shape] attribute of a constructed operator is the tuple of the
    elements of the shape argument, whatever iterable the argument was (a
    list [[M, N]] is stored as the tuple [(M, N)]); it passes [isshape]; and
    [matvec] is stored as it was given. *)
Theorem LinearOperator_shape_stored (sh mv rmv mm dt : pyval) (h : heap) r h' :
  LinearOperator sh mv rmv mm dt h = (Ok r, h') ->
  exists t,
    tuple sh = Ok t /\
    getattr h' r "shape" = Some (PyTuple t) /\
    isshape (PyTuple t) = true /\
    getattr h' r "matvec" = Some mv.
Proof.
  intros H.
  apply LinearOperator_Ok_inv in H as (t & d & Ht & Hs & _ & -> & ->).
  pose proof (operator_attrs_lookup t mv rmv mm d) as (H1 & H2 & _).
  exists t. by rewrite !getattr_new.
Qed.

(** X4. When the shape is accepted and a dtype is given that [numpy.dtype]
    rejects, the constructor raises numpy's exception, and it does so after
    the first four assignments: the instance it leaves behind has [shape],
    [matvec], [rmatvec] and [matmat] and no [dtype]. *)
Theorem LinearOperator_dtype_error
    (sh mv rmv mm dt : pyval) (t : list pyval) (e : exn) (h : heap) :
  tuple sh = Ok t ->
  isshape (PyTuple t) = true ->
  dt <> PyNone ->
  numpy_dtype dt = Raise e ->
  exists o,
    LinearOperator sh mv rmv mm dt h = (Raise e, h ++ [o]) /\
    class o = LinearOperatorClass /\
    attrs o !! "shape" = Some (PyTuple t) /\
    attrs o !! "matvec" = Some mv /\
    attrs o !! "rmatvec" = Some (stored_rmatvec rmv) /\
    attrs o !! "matmat" = Some (stored_matmat mv mm) /\
    attrs o !! "dtype" = None.
Proof.
  intros Ht Hs Hne He.
  exists (mk_object LinearOperatorClass (operator_attrs t mv rmv mm None)).
  rewrite LinearOperator_eq, Ht, Hs.
  assert (Hd : stored_dtype dt = Raise e).
  { unfold stored_dtype. rewrite He. by destruct dt. }
  rewrite Hd. split; [done|]. split; [done|].
  apply (operator_attrs_lookup t mv rmv mm None).
Qed.

(** *** The synthesized [matmat] off the main path *)

Lemma se_mapM_app_raise {S A B'} (f : A -> SE S B') (pre post : list A)
    (c : A) (s s1 s2 : S) (rs : list B') (e : exn) :
  se_mapM f pre s = (Ok rs, s1) ->
  f c s1 = (Raise e, s2) ->
  se_mapM f (pre ++ c :: post) s = (Raise e, s2).
Proof.
  revert s rs. induction pre as [|x pre IH]; intros s rs; cbn [se_mapM app].
  - intros [= _ <-] Hc. se_unfold. by rewrite Hc.
  - se_unfold. destruct (f x s) as [[y|e0] s0]; [|done].
    destruct (se_mapM f pre s0) as [[ys|e0] s0'] eqn:Hpre; [|done].
    intros [= _ <-] Hc.
    by rewrite (IH s0 ys Hpre Hc).
Qed.

(** X5. The synthesized [matmat] stops at the first column on which [matvec]
    raises: it raises that exception, in the world that call left, so
    [matvec] is not called on the columns to its right and nothing is
    joined. *)
Theorem matmat_default_stops (sh mv rmv dt : pyval) (h : heap) r h' :
  LinearOperator sh mv rmv PyNone dt h = (Ok r, h') ->
  forall (N K : nat) (d : list scalar) (dtp : Dtype)
         (pre post : list ndarray) (c : ndarray)
         (w w1 w2 : world) (rs : list ndarray) (e : exn),
    matrix_columns N K d dtp = pre ++ c :: post ->
    se_mapM (call mv) pre w = (Ok rs, w1) ->
    call mv c w1 = (Raise e, w2) ->
    invoke h' r "matmat" (mk_ndarray [N; K] d dtp) w = (Raise e, w2).
Proof.
  intros H N K d dtp pre post c w w1 w2 rs e Hcols Hpre Hc.
  apply LinearOperator_Ok_inv in H as (t & od & _ & _ & _ & -> & ->).
  pose proof (operator_attrs_lookup t mv rmv PyNone od) as (_ & _ & _ & H4 & _).
  unfold invoke. rewrite getattr_new, H4. cbn [stored_matmat call].
  rewrite matmat_default_columns, Hcols. se_unfold.
  by rewrite (se_mapM_app_raise _ pre post c w w1 w2 rs e Hpre Hc).
Qed.

(** X6. What the synthesized [matmat] does with an argument that is not a
    matrix.  A 0-d array cannot be iterated: [TypeError], and [matvec] is
    not called.  A 1-d array of length [n] is not taken as one column: its
    transpose is itself, so [matvec] is called [n] times, on each element as
    a 1 by 1 array, and the results are joined. *)
Theorem matmat_default_not_a_matrix (sh mv rmv dt : pyval) (h : heap) r h' :
  LinearOperator sh mv rmv PyNone dt h = (Ok r, h') ->
  (forall (d : list scalar) (dtp : Dtype) (w : world),
      invoke h' r "matmat" (mk_ndarray [] d dtp) w
      = (Raise (TypeError "iteration over a 0-d array"), w)) /\
  (forall (n : nat) (d : list scalar) (dtp : Dtype) (w : world),
      invoke h' r "matmat" (mk_ndarray [n] d dtp) w
      = (results ← se_mapM (call mv)
                     (map (fun i => mk_ndarray [1; 1] [nth i d zero] dtp)
                          (seq 0 n));
         se_lift (hstack results)) w).
Proof.
  intros H.
  apply LinearOperator_Ok_inv in H as (t & od & _ & _ & _ & -> & ->).
  pose proof (operator_attrs_lookup t mv rmv PyNone od) as (_ & _ & _ & H4 & _).
  split.
  - intros d dtp w. unfold invoke. rewrite getattr_new, H4. reflexivity.
  - intros n d dtp w. unfold invoke. rewrite getattr_new, H4.
    cbn [stored_matmat call]. unfold matmat_default, asarray, iter, transpose.
    cbn [shape data dtype rev app]. rewrite transpose_data_1d.
    se_unfold. cbn beta iota. rewrite se_mapM_map.
    cbn [prod_dims foldr]. rewrite chunks_seq, se_mapM_map.
    replace (map (fun i => mk_ndarray [1; 1] [nth i d zero] dtp) (seq 0 n))
      with (map (fun i => reshape_column
                   (mk_ndarray []
                      (take 1 (drop (i * 1)
                         (map (fun i0 => nth i0 d zero) (seq 0 n)))) dtp))
                (seq 0 n)).
    + by rewrite se_mapM_map.
    + apply map_seq_ext. intros i Hi. unfold reshape_column.
      cbn [shape data dtype prod_dims foldr]. f_equal.
      rewrite Nat.mul_1_r.
      rewrite (take_1_drop _ zero) by (by rewrite length_map, length_seq).
      by rewrite nth_map_seq.
Qed.

(** *** Printing a dense operator *)

Lemma LinearOperator__repr___new (h : heap) (M N : Z) (d : Dtype) c
    (ma : gmap string pyval) :
  ma !! "shape" = Some (PyTuple [PyInt M; PyInt N]) ->
  ma !! "dtype" = Some (PyDtype d) ->
  LinearOperator__repr__ (PyRef (length h)) (h ++ [mk_object c ma])
  = (Ok ("<" +:+ pretty M +:+ "x" +:+ pretty N +:+ " LinearOperator with "
           +:+ ("dtype=" +:+ str (PyDtype d)) +:+ ">"), h ++ [mk_object c ma]).
Proof.
  intros Hshape Hdtype.
  unfold LinearOperator__repr__, attribute, py_hasattr. se_unfold.
  rewrite getattr_new, Hshape. cbn.
  rewrite (hasattr_Some _ _ _ (PyDtype d)) by (by rewrite getattr_new).
  rewrite list_lookup_middle by done. simpl. by rewrite Hdtype.
Qed.

(** X8. Normalizing a dense array or matrix and printing the result gives
    ["<MxN LinearOperator with dtype=D>"], where [(M, N)] is the shape after
    the coercion to two dimensions and [D] is [str] of the array's dtype: a
    vector of length [n] prints as a [1xn] operator.  Printing leaves the
    heap as it is. *)
Theorem dense_operator_repr
    (A : pyval) (a : ndarray) (m n : nat) (h : heap) :
  A = PyNdarray a \/ A = PyMatrix a ->
  shape (atleast_2d a) = [m; n] ->
  exists r h',
    aslinearoperator A h = (Ok r, h') /\
    LinearOperator__repr__ r h'
    = (Ok ("<" +:+ pretty (Z.of_nat m) +:+ "x" +:+ pretty (Z.of_nat n)
             +:+ " LinearOperator with "
             +:+ ("dtype=" +:+ str (PyDtype (dtype a))) +:+ ">"), h').
Proof.
  intros HA Hshape.
  assert (Hlt : (2 <? length (shape a)) = false).
  { apply Nat.ltb_ge. unfold atleast_2d in Hshape.
    destruct (shape a) as [|? [|? [|? ?]]] eqn:Hs; simpl; try lia.
    rewrite Hs in Hshape. discriminate. }
  assert (Hdt : dtype (atleast_2d a) = dtype a).
  { unfold atleast_2d. by destruct (shape a) as [|? [|? ?]]. }
  set (A2 := atleast_2d a) in *.
  set (f := fun v : ndarray => se_lift (S := world) (dot A2 v)).
  set (g := fun v : ndarray =>
              se_lift (S := world) (dot (transpose (conj A2)) v)).
  assert (Hrun : aslinearoperator A h
                 = LinearOperator (shape_tuple (shape A2)) (PyFunction f)
                     (PyFunction g) (PyFunction f) (PyDtype (dtype A2)) h).
  { destruct HA as [-> | ->]; unfold aslinearoperator; simpl;
      by rewrite Hlt. }
  rewrite LinearOperator_eq, Hshape in Hrun.
  cbn [tuple shape_tuple map] in Hrun.
  rewrite isshape_of_nat in Hrun. cbn [stored_dtype numpy_dtype] in Hrun.
  eexists _, _. split; [exact Hrun|].
  rewrite Hdt.
  apply LinearOperator__repr___new;
    apply (operator_attrs_lookup
             [PyInt (Z.of_nat m); PyInt (Z.of_nat n)]
             (PyFunction f) (PyFunction g) (PyFunction f) (Some (dtype a))).
Qed.

(** *** The synthesized [matmat] of a dense product *)

Lemma chunks_length {A} (k sz : nat) (l : list A) : length (chunks k sz l) = k.
Proof. by rewrite chunks_seq, length_map, length_seq. Qed.

Lemma flat_map_singleton {A A'} (g : A -> A') (l : list A) :
  flat_map (fun x => [g x]) l = map g l.
Proof. induction l as [|x l IH]; [done|]. cbn. by rewrite IH. Qed.

Lemma map_nth_seq' {A} (l : list A) (z : A) :
  map (fun i => nth i l z) (seq 0 (length l)) = l.
Proof.
  apply (nth_ext _ _ z z).
  - by rewrite length_map, length_seq.
  - intros i Hi. rewrite length_map, length_seq in Hi.
    by rewrite nth_map_seq.
Qed.

Lemma block_column_take (N K c : nat) (d : list scalar) :
  c < K ->
  block_column N K c (take (N * K) d)
  = map (fun t => nth (t * K + c) d zero) (seq 0 N).
Proof.
  intros Hc. unfold block_column. apply map_seq_ext. intros t Ht.
  rewrite !nth_lookup. rewrite lookup_take_lt; [done | nia].
Qed.

(** The product of two matrices in the model: rows of the first against
    columns of the second, or the alignment error. *)
Lemma dot_2d_2d (m n N K : nat) (da d : list scalar) (dta dt : Dtype) :
  dot (mk_ndarray [m; n] da dta) (mk_ndarray [N; K] d dt) =
  if n =? N then
    Ok (mk_ndarray [m; K]
          (flat_map (fun r =>
             map (fun c => inner r (map (fun t => nth (t * K + c) d zero)
                                        (seq 0 N)))
                 (seq 0 K))
             (chunks m n da))
          (result_type dta dt))
  else Raise (ValueError "objects are not aligned").
Proof.
  unfold dot. cbn [shape data dtype List.last removelast app prod_dims foldr].
  destruct (n =? N); [|done]. do 2 f_equal.
  rewrite Nat.mul_1_r. cbn [chunks flat_map]. 
  apply flat_map_ext. intros r. rewrite app_nil_r.
  apply map_ext_in. intros c Hc. apply in_seq in Hc.
  rewrite block_column_take by lia. done.
Qed.

Lemma dot_matrix_column (m n N K j : nat) (da d : list scalar)
    (dta dt : Dtype) :
  dot (mk_ndarray [m; n] da dta) (matrix_column N K d dt j) =
  if n =? N then
    Ok (mk_ndarray [m; 1]
          (map (fun r => inner r (map (fun t => nth (t * K + j) d zero)
                                     (seq 0 N)))
               (chunks m n da))
          (result_type dta dt))
  else Raise (ValueError "objects are not aligned").
Proof.
  unfold matrix_column. rewrite dot_2d_2d.
  destruct (n =? N); [|done]. do 2 f_equal.
  rewrite <- (flat_map_singleton
                (fun r => inner r (map (fun t => nth (t * K + j) d zero)
                                       (seq 0 N)))).
  apply flat_map_ext. intros r.
  cbn [seq map]. do 2 f_equal.
  apply map_seq_ext. intros t Ht.
  replace (t * 1 + 0) with t by lia. by rewrite nth_map_seq.
Qed.

Lemma se_mapM_pure {S A B'} (f : A -> SE S B') (g : A -> B') (l : list A)
    (s : S) :
  (forall x, In x l -> f x s = (Ok (g x), s)) ->
  se_mapM f l s = (Ok (map g l), s).
Proof.
  induction l as [|x l IH]; intros H; [done|].
  cbn [se_mapM map]. se_unfold. rewrite (H x) by (by left).
  rewrite IH by (intros y Hy; apply H; by right). done.
Qed.

Lemma foldl_result_type_same (dtr : Dtype) (l : list Dtype) :
  (forall x, result_type x x = x) ->
  Forall (fun x => x = dtr) l ->
  foldl result_type dtr l = dtr.
Proof.
  intros Hidem. induction 1 as [|x l -> _ IH]; [done|].
  cbn. by rewrite Hidem.
Qed.

(** X9. For a dense [m] by [n] array [A], the [matmat] synthesized from the
    function [v -> dot(A, v)] agrees with [dot(A, V)] on every matrix [V]
    that has at least one column: it returns the product when [V] has [n]
    rows and raises the same alignment error when it has not (given that
    numpy's result type of a dtype with itself is that dtype).  On a matrix
    with [n] rows and no column the two differ: [dot] returns the [m] by 0
    matrix, the synthesized [matmat] raises. *)
Theorem matmat_default_dense
    (m n N K : nat) (da d : list scalar) (dta dt : Dtype) (w : world) :
  (forall x : Dtype, result_type x x = x) ->
  let A := mk_ndarray [m; n] da dta in
  let V := mk_ndarray [N; K] d dt in
  let mv := PyFunction (fun v => se_lift (dot A v)) in
  (0 < K -> matmat_default mv V w = (dot A V, w)) /\
  (K = 0 -> N = n ->
   dot A V = Ok (mk_ndarray [m; 0] [] (result_type dta dt)) /\
   matmat_default mv V w
   = (Raise (ValueError "need at least one array to concatenate"), w)).
Proof.
  intros Hidem A V mv. split.
  - intros HK. unfold V. rewrite matmat_default_columns.
    unfold A. rewrite dot_2d_2d.
    destruct (n =? N) eqn:HnN.
    + set (col := fun j => map (fun t => nth (t * K + j) d zero) (seq 0 N)).
      set (rows := chunks m n da).
      set (R := fun j => mk_ndarray [m; 1] (map (fun r => inner r (col j)) rows)
                           (result_type dta dt)).
      assert (Hcalls : se_mapM (call mv) (matrix_columns N K d dt) w
                       = (Ok (map R (seq 0 K)), w)).
      { unfold matrix_columns. rewrite se_mapM_map.
        apply se_mapM_pure. intros j _. unfold mv, call, se_lift, A.
        by rewrite dot_matrix_column, HnN. }
      se_unfold. rewrite Hcalls.
      destruct K as [|K']; [lia|].
      change (seq 0 (S K')) with (0 :: seq 1 K') at 1. cbn [map].
      rewrite (hstack_columns m).
      * unfold matrix_of_columns. do 2 f_equal.
        change (R 0 :: map R (seq 1 K')) with (map R (seq 0 (S K'))).
        assert (Hlen : length (map R (seq 0 (S K'))) = S K')
          by (by rewrite length_map, length_seq).
        assert (Hdt : foldl result_type (dtype (R 0))
                        (map dtype (map R (seq 1 K'))) = result_type dta dt).
        { apply foldl_result_type_same; [done|].
          apply Forall_forall. intros x Hx.
          apply list_elem_of_In in Hx. rewrite map_map in Hx.
          apply in_map_iff in Hx as (j & <- & _). done. }
        assert (Hdata :
          concat (map (fun i => map (fun r => nth i (data r) zero)
                                    (map R (seq 0 (S K')))) (seq 0 m))
          = flat_map (fun r => map (fun c => inner r (col c)) (seq 0 (S K')))
                     rows).
        { rewrite flat_map_concat_map.
          rewrite <- (map_nth_seq' rows []) at 1.
          replace (length rows) with m
            by (unfold rows; by rewrite chunks_length).
          rewrite map_map. f_equal.
          apply map_seq_ext. intros i Hi. rewrite map_map.
          apply map_ext. intros j. unfold R. cbn [data].
          rewrite (nth_indep _ zero (inner [] (col j)))
            by (rewrite length_map; unfold rows; by rewrite chunks_length).
          by rewrite (map_nth (fun r => inner r (col j)) rows [] i). }
        rewrite Hlen, Hdt, Hdata. reflexivity.
      * change (R 0 :: map R (seq 1 K')) with (map R (seq 0 (S K'))).
        apply Forall_forall. intros x Hx.
        apply list_elem_of_In, in_map_iff in Hx as (j & <- & _).
        split; [done|]. unfold wf_ndarray, R. cbn [data shape prod_dims foldr].
        rewrite length_map. unfold rows. rewrite chunks_length. lia.
    + destruct K as [|K']; [lia|].
      unfold matrix_columns. change (seq 0 (S K')) with (0 :: seq 1 K').
      cbn [map se_mapM]. se_unfold. unfold mv at 1. cbn [call]. 
      unfold se_lift, A. by rewrite dot_matrix_column, HnN.
  - intros -> ->. split.
    + unfold A, V. rewrite dot_2d_2d, Nat.eqb_refl. do 2 f_equal.
      cbn [seq map]. induction (chunks m n da) as [|r l IH]; [done|].
      cbn. exact IH.
    + unfold V. by rewrite matmat_default_columns.
Qed.

End FurtherProperties.

(** * Witnesses and counterexamples

    The statements above at concrete inputs, in the setting of [Example]. *)

Import Example.

(** *** C5 *)

Lemma aslinearoperator_operator_identity_witness :
  fst plain_operator = Ok (PyRef 0) /\
  aslinearoperator (PyRef 0) (snd plain_operator)
  = (Ok (PyRef 0), snd plain_operator).
Proof.
  split; [reflexivity|].
  apply (proj1 (aslinearoperator_operator_identity (PyRef 0)
                  (snd plain_operator))).
  vm_compute. reflexivity.
Defined.

(** *** C6 *)

Lemma aslinearoperator_rank_error_witness :
  aslinearoperator (PyNdarray (int64 [1; 1; 2] [5; 7]%Z)) []
  = (Raise (ValueError "array must have rank <= 2"), []).
Proof.
  apply (aslinearoperator_rank_error _ (int64 [1; 1; 2] [5; 7]%Z));
    [left; reflexivity | vm_compute; lia].
Defined.

(** *** C7 *)

Lemma aslinearoperator_type_error_witness :
  aslinearoperator (PyStr "abc") []
  = (Raise (TypeError "type not understood"), []).
Proof. apply aslinearoperator_type_error; reflexivity. Defined.

(** *** C4 *)

(** [LinearOperator(5, matvec)]: the shape is not valid, and the exception is
    not [ValueError('invalid shape')] but the [TypeError] of [tuple(5)]. *)
Lemma LinearOperator_invalid_shape_counterexample :
  valid_shape_argument (PyInt 5) = false /\
  LinearOperator__init__ 0 (PyInt 5) (PyFunction double) PyNone PyNone PyNone
    [mk_object LinearOperatorClass ∅]
  = (Raise (TypeError "'int' object is not iterable"),
     [mk_object LinearOperatorClass ∅]) /\
  TypeError "'int' object is not iterable" <> ValueError "invalid shape".
Proof.
  split; [reflexivity|]. split; [vm_compute; reflexivity | discriminate].
Qed.

(** [LinearOperator((2,3,4), matvec)]: three dimensions are not a shape. *)
Lemma LinearOperator_invalid_shape_witness :
  LinearOperator__init__ 0 (PyTuple [PyInt 2; PyInt 3; PyInt 4])
    (PyFunction double) PyNone PyNone PyNone [mk_object LinearOperatorClass ∅]
  = (Raise (ValueError "invalid shape"), [mk_object LinearOperatorClass ∅]) /\
  LinearOperator (PyTuple [PyInt 2; PyInt 3; PyInt 4]) (PyFunction double)
    PyNone PyNone PyNone [mk_object LinearOperatorClass ∅]
  = (Raise (ValueError "invalid shape"),
     [mk_object LinearOperatorClass ∅] ++ [mk_object LinearOperatorClass ∅]).
Proof.
  apply (LinearOperator_invalid_shape 0 (PyTuple [PyInt 2; PyInt 3; PyInt 4])).
  reflexivity.
Defined.

(** A shape given as the array [array([2,3])] is a sequence of two
    non-negative integers: the constructor accepts it and stores the tuple
    [(2, 3)]. *)
Example LinearOperator_array_shape :
  valid_shape_argument (PyNdarray (int64 [2] [2; 3]%Z)) = true /\
  fst (LinearOperator (PyNdarray (int64 [2] [2; 3]%Z)) (PyFunction double)
         PyNone PyNone PyNone []) = Ok (PyRef 0) /\
  getattr (snd (LinearOperator (PyNdarray (int64 [2] [2; 3]%Z))
                  (PyFunction double) PyNone PyNone PyNone []))
    (PyRef 0) "shape" = Some (PyTuple [PyInt 2; PyInt 3]).
Proof. repeat split; vm_compute; reflexivity. Qed.

(** *** C10 *)

(** An object with [matvec] and [shape = 5]: normalization fails with the
    [TypeError] of [tuple(5)], not with [ValueError('invalid shape')]. *)
Lemma aslinearoperator_duck_invalid_shape_counterexample :
  hasattr bad_shape_object (PyRef 0) "shape" = true /\
  hasattr bad_shape_object (PyRef 0) "matvec" = true /\
  getattr bad_shape_object (PyRef 0) "shape" = Some (PyInt 5) /\
  valid_shape_argument (PyInt 5) = false /\
  fst (aslinearoperator (PyRef 0) bad_shape_object)
  = Raise (TypeError "'int' object is not iterable") /\
  fst (aslinearoperator (PyRef 0) bad_shape_object)
  <> Raise (ValueError "invalid shape").
Proof. repeat split; try (vm_compute; reflexivity). vm_compute. discriminate. Qed.

(** An object with [matvec] and [shape = [3, 2, 1]]. *)
Lemma aslinearoperator_duck_invalid_shape_witness :
  aslinearoperator (PyRef 0) long_shape_object
  = (Raise (ValueError "invalid shape"),
     long_shape_object ++ [mk_object LinearOperatorClass ∅]) /\
  ValueError "invalid shape" <> TypeError "type not understood".
Proof.
  apply (aslinearoperator_duck_invalid_shape (PyRef 0)
           (PyList [PyInt 3; PyInt 2; PyInt 1]) (PyFunction double)
           long_shape_object); reflexivity.
Defined.

(** An object with [matvec] and [shape = array([2,3])] is normalized to a
    2 by 3 operator. *)
Example aslinearoperator_array_shape :
  fst (aslinearoperator (PyRef 0) array_shape_object) = Ok (PyRef 1) /\
  getattr (snd (aslinearoperator (PyRef 0) array_shape_object)) (PyRef 1)
    "shape" = Some (PyTuple [PyInt 2; PyInt 3]) /\
  fst (LinearOperator__repr__ (PyRef 1)
         (snd (aslinearoperator (PyRef 0) array_shape_object)))
  = Ok "<2x3 LinearOperator with unspecified dtype>".
Proof. repeat split; vm_compute; reflexivity. Qed.

(** *** C3 *)

(** The message of the stand-in is the code's, not the spec's. *)
Lemma rmatvec_default_raises_counterexample :
  fst plain_operator = Ok (PyRef 0) /\
  fst (invoke (snd plain_operator) (PyRef 0) "rmatvec" eye2 [])
  = Raise (NotImplementedError "rmatvec is not defined") /\
  NotImplementedError "rmatvec is not defined"
  <> NotImplementedError "Hermitian-transpose action is not defined".
Proof.
  split; [reflexivity|]. split; [vm_compute; reflexivity | discriminate].
Qed.

Lemma rmatvec_default_raises_witness :
  getattr (snd plain_operator) (PyRef 0) "rmatvec"
  = Some (PyFunction rmatvec_default) /\
  forall v w,
    invoke (snd plain_operator) (PyRef 0) "rmatvec" v w
    = (Raise (NotImplementedError "rmatvec is not defined"), w).
Proof.
  apply (proj1 (rmatvec_default_raises shape22 (PyFunction double)
                  PyNone PyNone [])).
  vm_compute. reflexivity.
Defined.

(** *** C9 *)

(** The docstring's example: the string has the angle brackets and the class
    name. *)
Lemma LinearOperator_repr_counterexample :
  fst plain_operator = Ok (PyRef 0) /\
  fst (LinearOperator__repr__ (PyRef 0) (snd plain_operator))
  = Ok "<2x2 LinearOperator with unspecified dtype>" /\
  fst int32_operator = Ok (PyRef 0) /\
  fst (LinearOperator__repr__ (PyRef 0) (snd int32_operator))
  = Ok "<2x2 LinearOperator with dtype=int32>" /\
  "<2x2 LinearOperator with unspecified dtype>"
  <> "2x2 operator with unspecified dtype" /\
  "<2x2 LinearOperator with dtype=int32>" <> "2x2 operator with dtype=int32".
Proof.
  repeat split; try (vm_compute; reflexivity); discriminate.
Qed.

Lemma LinearOperator_repr_witness :
  exists M N,
    tuple shape22 = Ok [PyInt M; PyInt N] /\ (0 <= M)%Z /\ (0 <= N)%Z /\
    (PyStr "int32" = PyNone ->
     getattr (snd int32_operator) (PyRef 0) "dtype" = None /\
     LinearOperator__repr__ (PyRef 0) (snd int32_operator)
     = (Ok ("<" +:+ pretty M +:+ "x" +:+ pretty N +:+ " LinearOperator with "
              +:+ "unspecified dtype" +:+ ">"), snd int32_operator)) /\
    (PyStr "int32" <> PyNone ->
     exists d,
       numpy_dtype (PyStr "int32") = Ok d /\
       getattr (snd int32_operator) (PyRef 0) "dtype" = Some (PyDtype d) /\
       LinearOperator__repr__ (PyRef 0) (snd int32_operator)
       = (Ok ("<" +:+ pretty M +:+ "x" +:+ pretty N +:+ " LinearOperator with "
                +:+ ("dtype=" +:+ str (PyDtype d)) +:+ ">"),
          snd int32_operator)).
Proof.
  apply (LinearOperator_repr shape22 (PyFunction double) PyNone PyNone
           (PyStr "int32") []).
  vm_compute. reflexivity.
Defined.

(** *** C8 *)

(** An object whose [rmatvec] attribute is [None]: the attribute is present,
    and the operator holds the stand-in, not the attribute. *)
Lemma aslinearoperator_duck_typed_counterexample :
  hasattr rmatvec_None_object (PyRef 0) "rmatvec" = true /\
  getattr rmatvec_None_object (PyRef 0) "rmatvec" = Some PyNone /\
  fst (aslinearoperator (PyRef 0) rmatvec_None_object) = Ok (PyRef 1) /\
  getattr (snd (aslinearoperator (PyRef 0) rmatvec_None_object)) (PyRef 1)
    "rmatvec" = Some (PyFunction rmatvec_default) /\
  getattr (snd (aslinearoperator (PyRef 0) rmatvec_None_object)) (PyRef 1)
    "rmatvec" <> getattr rmatvec_None_object (PyRef 0) "rmatvec".
Proof.
  repeat split; try (vm_compute; reflexivity). vm_compute. discriminate.
Qed.

Lemma aslinearoperator_duck_typed_witness :
  let h' := snd (aslinearoperator (PyRef 0) full_object) in
  getattr h' (PyRef 1) "matvec" = Some (PyFunction double) /\
  getattr h' (PyRef 1) "matmat"
  = Some (PyFunction (matmat_default (PyFunction double))) /\
  getattr h' (PyRef 1) "rmatvec" = Some (PyFunction double) /\
  exists d,
    numpy_dtype (PyStr "int32") = Ok d /\
    getattr h' (PyRef 1) "dtype" = Some (PyDtype d).
Proof.
  apply (aslinearoperator_duck_typed (PyRef 0) shape22 (PyFunction double)
           full_object (PyRef 1)
           (snd (aslinearoperator (PyRef 0) full_object)));
    vm_compute; reflexivity.
Defined.

(** *** C2 *)

(** A rank-1 array: the operator multiplies by the 1 by 3 row, which is not
    the product with the array itself.  [matvec] returns a 1-element array
    where the product is a scalar; [rmatvec] is defined on a vector of length
    1, where the product with the conjugate transpose is not, and fails on a
    vector of length 3, where that product is defined. *)
Lemma aslinearoperator_dense_counterexample :
  let op := aslinearoperator (PyNdarray vector123) [] in
  fst op = Ok (PyRef 0) /\
  fst (invoke (snd op) (PyRef 0) "matvec" (int64 [3] [1; 1; 1]%Z) [])
  = Ok (int64 [1] [6]%Z) /\
  dot vector123 (int64 [3] [1; 1; 1]%Z) = Ok (int64 [] [6]%Z) /\
  fst (invoke (snd op) (PyRef 0) "rmatvec" (int64 [1] [2]%Z) [])
  = Ok (int64 [3] [2; 4; 6]%Z) /\
  dot (transpose (conj vector123)) (int64 [1] [2]%Z)
  = Raise (ValueError "objects are not aligned") /\
  fst (invoke (snd op) (PyRef 0) "rmatvec" (int64 [3] [1; 1; 1]%Z) [])
  = Raise (ValueError "objects are not aligned") /\
  dot (transpose (conj vector123)) (int64 [3] [1; 1; 1]%Z)
  = Ok (int64 [] [6]%Z).
Proof. repeat split; vm_compute; reflexivity. Qed.

Lemma aslinearoperator_dense_witness :
  let A2 := atleast_2d vector123 in
  exists r h' f g m,
    aslinearoperator (PyNdarray vector123) [] = (Ok r, h') /\
    getattr h' r "shape" = Some (shape_tuple (shape A2)) /\
    getattr h' r "matvec" = Some (PyFunction f) /\
    (forall x w, f x w = (dot A2 x, w)) /\
    getattr h' r "rmatvec" = Some (PyFunction g) /\
    (forall v w, g v w = (dot (transpose (conj A2)) v, w)) /\
    getattr h' r "matmat" = Some (PyFunction m) /\
    (forall V w, m V w = (dot A2 V, w)) /\
    getattr h' r "dtype" = Some (PyDtype (dtype vector123)) /\
    (ndim vector123 = 2 -> A2 = vector123).
Proof.
  apply (aslinearoperator_dense (PyNdarray vector123) vector123 []);
    [left; reflexivity | vm_compute; lia].
Defined.

(** *** C1 *)

(** A [matvec] that returns 1-d arrays: the synthesized [matmat] joins them
    end to end into one array of length 4, where reshaping each result as a
    column would give the 2 by 2 matrix. *)
Lemma matmat_default_by_columns_counterexample :
  fst flat_operator = Ok (PyRef 0) /\
  fst (invoke (snd flat_operator) (PyRef 0) "matmat" eye2 [])
  = Ok (int64 [4] [2; 0; 0; 2]%Z) /\
  fst (matmat_reshaping_results (PyFunction double_flat) 2 2 (data eye2)
         (dtype eye2) [])
  = Ok (int64 [2; 2] [2; 0; 0; 2]%Z) /\
  int64 [4] [2; 0; 0; 2]%Z <> int64 [2; 2] [2; 0; 0; 2]%Z.
Proof.
  repeat split; try (vm_compute; reflexivity). discriminate.
Qed.

Lemma matmat_default_by_columns_witness :
  exists mm,
    getattr (snd plain_operator) (PyRef 0) "matmat" = Some (PyFunction mm) /\
    mm eye2 [] = (Ok (int64 [2; 2] [2; 0; 0; 2]%Z), [[0; 1]; [1; 0]]%Z).
Proof.
  destruct (matmat_default_by_columns shape22 (PyFunction double) PyNone PyNone
              [] (PyRef 0) (snd plain_operator) eq_refl) as (mm & Hslot & Hmm).
  exists mm. split; [exact Hslot|].
  destruct (Hmm 2 2 (data eye2) (dtype eye2) []) as (_ & Hcols & _).
  apply (Hcols 2 (int64 [2; 1] [2; 0]%Z) [int64 [2; 1] [0; 2]%Z]
           [[0; 1]; [1; 0]]%Z eq_refl).
  repeat constructor.
Defined.

(** *** The examples of the docstrings and of the spec *)

(** [LinearOperator((2,2), matvec=mv)] prints as in the class docstring, and
    [A.matvec(ones(2))] is [[2, 3]]. *)
Example docstring_LinearOperator :
  let A := LinearOperator shape22 (PyFunction mv) PyNone PyNone PyNone [] in
  fst A = Ok (PyRef 0) /\
  fst (LinearOperator__repr__ (PyRef 0) (snd A))
  = Ok "<2x2 LinearOperator with unspecified dtype>" /\
  fst (invoke (snd A) (PyRef 0) "matvec" (int64 [2] [1; 1]%Z) [])
  = Ok (int64 [2] [2; 3]%Z).
Proof. repeat split; vm_compute; reflexivity. Qed.

(** [aslinearoperator(M)] prints as in the function's docstring. *)
Example docstring_aslinearoperator :
  fst (aslinearoperator M23 []) = Ok (PyRef 0) /\
  fst (LinearOperator__repr__ (PyRef 0) (snd (aslinearoperator M23 [])))
  = Ok "<2x3 LinearOperator with dtype=int32>".
Proof. split; vm_compute; reflexivity. Qed.

(** The spec's examples: for [A = [[2,0],[0,3]]], [matvec([1,1])] is [[2,3]],
    and the [matmat] synthesized from [A]'s [matvec] maps the identity to
    [A]. *)
Example spec_dense_examples :
  let A := aslinearoperator (PyNdarray diag23) [] in
  fst A = Ok (PyRef 0) /\
  fst (invoke (snd A) (PyRef 0) "matvec" (int64 [2] [1; 1]%Z) [])
  = Ok (int64 [2] [2; 3]%Z) /\
  fst (matmat_default (PyFunction (fun v => se_lift (dot diag23 v))) eye2 [])
  = Ok diag23.
Proof. repeat split; vm_compute; reflexivity. Qed.

(** * Further examples

    The further properties at concrete inputs. *)

Module MoreExamples.

(** A sparse matrix standing for [2 * identity(2)]: its methods double their
    argument. *)
Definition sparse2 : spmatrix :=
  mk_spmatrix (2, 2) "int64" double double_flat double [].

(** A [matvec] that refuses a column whose first entry is zero. *)
Definition picky : callable :=
  fun v w =>
    if (nth 0 (data v) 0 =? 0)%Z
    then (Raise (ValueError "zero"), data v :: w)
    else (Ok (int64 (shape v) (data v)), data v :: w).

Definition picky_operator : result pyval * heap :=
  LinearOperator shape22 (PyFunction picky) PyNone PyNone PyNone [].

(** [[[1,0,5],[0,1,6]]] *)
Definition wide : ndarray := int64 [2; 3] [1; 0; 5; 0; 1; 6]%Z.

Definition supplied_operator : result pyval * heap :=
  LinearOperator shape22 (PyFunction double) (PyFunction double_flat)
    (PyFunction mv) PyNone [].

Definition list_shape_operator : result pyval * heap :=
  LinearOperator (PyList [PyInt 2; PyInt 3]) (PyFunction double)
    PyNone PyNone PyNone [].

End MoreExamples.

Import MoreExamples.

Lemma aslinearoperator_frame_witness :
  (forall a o,
      rmatvec_None_object !! a = Some o ->
      snd (aslinearoperator (PyRef 0) rmatvec_None_object) !! a = Some o) /\
  length rmatvec_None_object
  <= length (snd (aslinearoperator (PyRef 0) rmatvec_None_object))
  <= S (length rmatvec_None_object).
Proof.
  apply (aslinearoperator_frame (PyRef 0) rmatvec_None_object (Ok (PyRef 1))).
  vm_compute. reflexivity.
Defined.

Lemma aslinearoperator_sparse_witness :
  let h' := snd (aslinearoperator (PySpmatrix sparse2) []) in
  getattr h' (PyRef 0) "shape" = Some (PyTuple [PyInt 2; PyInt 2]) /\
  getattr h' (PyRef 0) "matvec" = Some (PyFunction double) /\
  getattr h' (PyRef 0) "rmatvec" = Some (PyFunction double_flat) /\
  getattr h' (PyRef 0) "matmat" = Some (PyFunction double) /\
  getattr h' (PyRef 0) "dtype" = Some (PyDtype "int64") /\
  (forall V w, invoke h' (PyRef 0) "matmat" V w = double V w) /\
  (forall v w, invoke h' (PyRef 0) "rmatvec" v w = double_flat v w).
Proof.
  apply (aslinearoperator_sparse sparse2 [] (PyRef 0)).
  vm_compute. reflexivity.
Defined.

Lemma LinearOperator_supplied_witness :
  getattr (snd supplied_operator) (PyRef 0) "rmatvec"
  = Some (PyFunction double_flat) /\
  getattr (snd supplied_operator) (PyRef 0) "matmat" = Some (PyFunction mv) /\
  (forall V w,
      invoke (snd supplied_operator) (PyRef 0) "matmat" V w
      = call (PyFunction mv) V w) /\
  (forall v w,
      invoke (snd supplied_operator) (PyRef 0) "rmatvec" v w
      = call (PyFunction double_flat) v w).
Proof.
  apply (LinearOperator_supplied shape22 (PyFunction double)
           (PyFunction double_flat) (PyFunction mv) PyNone []);
    [discriminate | discriminate | vm_compute; reflexivity].
Defined.

Lemma LinearOperator_shape_stored_witness :
  exists t,
    tuple (PyList [PyInt 2; PyInt 3]) = Ok t /\
    getattr (snd list_shape_operator) (PyRef 0) "shape" = Some (PyTuple t) /\
    isshape (PyTuple t) = true /\
    getattr (snd list_shape_operator) (PyRef 0) "matvec"
    = Some (PyFunction double).
Proof.
  apply (LinearOperator_shape_stored (PyList [PyInt 2; PyInt 3])
           (PyFunction double) PyNone PyNone PyNone []).
  vm_compute. reflexivity.
Defined.

Lemma LinearOperator_dtype_error_witness :
  exists o,
    LinearOperator shape22 (PyFunction double) PyNone PyNone (PyStr "quux") []
    = (Raise (TypeError "data type not understood"), [] ++ [o]) /\
    class o = LinearOperatorClass /\
    attrs o !! "shape" = Some (PyTuple [PyInt 2; PyInt 2]) /\
    attrs o !! "matvec" = Some (PyFunction double) /\
    attrs o !! "rmatvec" = Some (stored_rmatvec PyNone) /\
    attrs o !! "matmat" = Some (stored_matmat (PyFunction double) PyNone) /\
    attrs o !! "dtype" = None.
Proof.
  apply (LinearOperator_dtype_error shape22 (PyFunction double) PyNone PyNone
           (PyStr "quux") [PyInt 2; PyInt 2]
           (TypeError "data type not understood") []);
    [reflexivity | reflexivity | discriminate | reflexivity].
Defined.

Lemma matmat_default_stops_witness :
  invoke (snd picky_operator) (PyRef 0) "matmat" wide []
  = (Raise (ValueError "zero"), [[0; 1]; [1; 0]]%Z).
Proof.
  apply (matmat_default_stops shape22 (PyFunction picky) PyNone PyNone []
           (PyRef 0) (snd picky_operator) eq_refl
           2 3 (data wide) (dtype wide)
           [int64 [2; 1] [1; 0]%Z] [int64 [2; 1] [5; 6]%Z]
           (int64 [2; 1] [0; 1]%Z)
           [] [[1; 0]%Z] [[0; 1]; [1; 0]]%Z
           [int64 [2; 1] [1; 0]%Z] (ValueError "zero"));
    reflexivity.
Defined.

Lemma matmat_default_not_a_matrix_witness :
  (forall (d : list Z) (dtp : string) (w : list (list Z)),
      invoke (snd plain_operator) (PyRef 0) "matmat" (mk_ndarray [] d dtp) w
      = (Raise (TypeError "iteration over a 0-d array"), w)) /\
  (forall (n : nat) (d : list Z) (dtp : string) (w : list (list Z)),
      invoke (snd plain_operator) (PyRef 0) "matmat" (mk_ndarray [n] d dtp) w
      = (results ← se_mapM (call (PyFunction double))
                     (map (fun i => mk_ndarray [1; 1] [nth i d 0%Z] dtp)
                          (seq 0 n));
         se_lift (hstack results)) w).
Proof.
  apply (matmat_default_not_a_matrix shape22 (PyFunction double) PyNone PyNone
           [] (PyRef 0) (snd plain_operator)).
  vm_compute. reflexivity.
Defined.

Lemma dense_operator_repr_witness :
  exists r h',
    aslinearoperator (PyNdarray vector123) [] = (Ok r, h') /\
    LinearOperator__repr__ r h'
    = (Ok ("<" +:+ pretty (Z.of_nat 1) +:+ "x" +:+ pretty (Z.of_nat 3)
             +:+ " LinearOperator with "
             +:+ ("dtype=" +:+ str (PyDtype (dtype vector123))) +:+ ">"), h').
Proof.
  apply (dense_operator_repr (PyNdarray vector123) vector123 1 3 []);
    [left; reflexivity | reflexivity].
Defined.

Lemma matmat_default_dense_witness :
  let A := diag23 in
  let V := eye2 in
  let mv := PyFunction (fun v => se_lift (dot A v)) in
  (0 < 2 -> matmat_default mv V [] = (dot A V, [])) /\
  (2 = 0 -> 2 = 2 ->
   dot A V = Ok (int64 [2; 0] []) /\
   matmat_default mv V []
   = (Raise (ValueError "need at least one array to concatenate"), [])).
Proof.
  apply (matmat_default_dense (E := ZEnv) 2 2 2 2 (data diag23) (data eye2)
           "int64" "int64" []).
  reflexivity.
Defined.

(** The two examples above, evaluated. *)
Example dense_vector_prints_as_row :
  fst (LinearOperator__repr__ (PyRef 0)
         (snd (aslinearoperator (PyNdarray vector123) [])))
  = Ok "<1x3 LinearOperator with dtype=int64>".
Proof. vm_compute. reflexivity. Qed.

Example matmat_of_a_vector :
  fst (invoke (snd plain_operator) (PyRef 0) "matmat" vector123 [])
  = Ok (int64 [1; 3] [2; 4; 6]%Z).
Proof. vm_compute. reflexivity. Qed.
